(** * SPERT tally-report parser: a shallow embedding of [parse_tallies.py]

    The development follows [src/spertfiles/parse_tallies.py], function
    [main].  Python text is modelled by [string] (characters with code
    points below 256), the coordinate dictionary [dc] by an association
    list in insertion order (the order [dc.keys()] iterates in), the
    working directory by a finite map from file names to contents, and
    the exceptions the interpreter raises by an explicit outcome type
    that keeps the state reached when the exception is raised. *)

From Stdlib Require Import ZArith Ascii String List Bool Lia DecimalString.
From stdpp Require Import gmap strings list fin_maps sorting.

Local Open Scope Z_scope.

(** ** Python text primitives *)

Module PyStr.

(** [needle in hay] on two [str] values. *)
Fixpoint contains (needle hay : string) : bool :=
  match hay with
  | EmptyString => String.prefix needle EmptyString
  | String _ rest => String.prefix needle hay || contains needle rest
  end.

(** [str.isspace] for a single character: the code points 9-13, 28-32,
    133 and 160. *)
Definition is_space (c : ascii) : bool :=
  let n := N_of_ascii c in
  ((9 <=? n) && (n <=? 13) || (28 <=? n) && (n <=? 32)
   || (n =? 133) || (n =? 160))%N.

(** [s.split()]: the maximal runs of characters that are not white
    space, in order.  [cur] is the run being read. *)
Fixpoint split_go (cur : string) (s : string) : list string :=
  match s with
  | EmptyString => if String.eqb cur "" then [] else [cur]
  | String c rest =>
      if is_space c
      then (if String.eqb cur "" then split_go "" rest
            else cur :: split_go "" rest)
      else split_go (cur +:+ String c "") rest
  end.

Definition split (s : string) : list string := split_go "" s.

(** [str(n)] for a natural number. *)
Definition str_of_nat (n : nat) : string :=
  NilEmpty.string_of_uint (Nat.to_uint n).

(** [''.join(ls)], which is also what [writelines] writes. *)
Definition join (ls : list string) : string :=
  fold_right String.append "" ls.

(** Universal-newline translation done by a text-mode [read]:
    CR LF and a lone CR both become LF. *)
Fixpoint universal_newlines (s : string) : string :=
  match s with
  | EmptyString => EmptyString
  | String c rest =>
      if Ascii.eqb c "013" then
        match rest with
        | String d rest' =>
            if Ascii.eqb d "010" then String "010" (universal_newlines rest')
            else String "010" (universal_newlines rest)
        | EmptyString => String "010" EmptyString
        end
      else String c (universal_newlines rest)
  end.

(** The characters at which [str.splitlines] breaks a line, once CR has
    been translated away: LF, VT, FF, FS, GS, RS and NEL. *)
Definition is_linebreak (c : ascii) : bool :=
  let n := N_of_ascii c in
  ((10 <=? n) && (n <=? 13) || (28 <=? n) && (n <=? 30) || (n =? 133))%N.

(** [s.splitlines(True)]: lines with their terminators kept.  A CR
    directly followed by LF ends one line, not two. *)
Fixpoint splitlines_go (cur : string) (s : string) : list string :=
  match s with
  | EmptyString => if String.eqb cur "" then [] else [cur]
  | String c rest =>
      if is_linebreak c then
        if Ascii.eqb c "013" then
          match rest with
          | String d rest' =>
              if Ascii.eqb d "010"
              then (cur +:+ String c (String d "")) :: splitlines_go "" rest'
              else (cur +:+ String c "") :: splitlines_go "" rest
          | EmptyString => [cur +:+ String c ""]
          end
        else (cur +:+ String c "") :: splitlines_go "" rest
      else splitlines_go (cur +:+ String c "") rest
  end.

Definition splitlines_keep (s : string) : list string := splitlines_go "" s.

(** Iterating a text-mode file object: the lines of the translated
    text, each with its LF, the last one possibly without. *)
Fixpoint lines_go (cur : string) (s : string) : list string :=
  match s with
  | EmptyString => if String.eqb cur "" then [] else [cur]
  | String c rest =>
      if Ascii.eqb c "010" then (cur +:+ String c "") :: lines_go "" rest
      else lines_go (cur +:+ String c "") rest
  end.

Definition file_lines (text : string) : list string :=
  lines_go "" (universal_newlines text).

End PyStr.

(** ** Python [float(s)] and ['%.6e' % x]

    A binary64 value is kept as sign, integer significand and binary
    exponent; conversion from a decimal literal rounds to nearest, ties
    to even, and formatting rounds the exact binary value to seven
    significant decimal digits, ties to even, as the interpreter's
    correctly rounded conversions do. *)

Module PyFloat.

Inductive pyfloat : Type :=
| Fnan
| Finf (neg : bool)
| Ffin (neg : bool) (m e : Z).   (* (-1)^neg * m * 2^e, with 0 <= m *)

Definition is_digit (c : ascii) : bool :=
  let n := N_of_ascii c in ((48 <=? n) && (n <=? 57))%N.

Definition digit_val (c : ascii) : Z := Z.of_N (N_of_ascii c) - 48.

(** ASCII lower-casing, for the spellings of infinity and NaN. *)
Definition lower (c : ascii) : ascii :=
  let n := N_of_ascii c in
  if ((65 <=? n) && (n <=? 90))%N then ascii_of_N (n + 32) else c.

Fixpoint lower_str (s : string) : string :=
  match s with
  | EmptyString => EmptyString
  | String c r => String (lower c) (lower_str r)
  end.

(** The white space [float] ignores at both ends: the code points
    9-13 and 32, and 133 and 160 (the separators 28-31 are not among
    them). *)
Definition is_float_space (c : ascii) : bool :=
  let n := N_of_ascii c in
  ((9 <=? n) && (n <=? 13) || (n =? 32) || (n =? 133) || (n =? 160))%N.

Fixpoint lstrip (s : string) : string :=
  match s with
  | String c r => if is_float_space c then lstrip r else s
  | EmptyString => EmptyString
  end.

Definition strip (s : string) : string :=
  String.rev (lstrip (String.rev (lstrip s))).

(** Digit-group underscores: each must stand between two digits; they
    are dropped.  [prev] is the character before [s]. *)
Fixpoint drop_underscores (prev : option ascii) (s : string) : option string :=
  match s with
  | EmptyString =>
      match prev with
      | Some p => if Ascii.eqb p "_" then None else Some EmptyString
      | None => Some EmptyString
      end
  | String c r =>
      if Ascii.eqb c "_" then
        match prev with
        | Some p => if is_digit p then drop_underscores (Some c) r else None
        | None => None
        end
      else
        match prev with
        | Some p =>
            if Ascii.eqb p "_" && negb (is_digit c) then None
            else option_map (String c) (drop_underscores (Some c) r)
        | None => option_map (String c) (drop_underscores (Some c) r)
        end
  end.

(** Reads a run of digits: (value with the digits appended to [acc],
    number of digits read, rest of the text). *)
Fixpoint read_digits (acc : Z) (cnt : Z) (s : string) : Z * Z * string :=
  match s with
  | String c r =>
      if is_digit c then read_digits (10 * acc + digit_val c) (cnt + 1) r
      else (acc, cnt, s)
  | EmptyString => (acc, cnt, s)
  end.

Definition read_sign (s : string) : bool * string :=
  match s with
  | String c r =>
      if Ascii.eqb c "-" then (true, r)
      else if Ascii.eqb c "+" then (false, r)
      else (false, s)
  | EmptyString => (false, s)
  end.

(** The exponent part: [e] or [E], an optional sign, at least one
    digit, and nothing after it. *)
Definition read_exponent (s : string) : option Z :=
  match s with
  | EmptyString => Some 0
  | String c r =>
      if Ascii.eqb (lower c) "e" then
        let '(neg, r1) := read_sign r in
        let '(x, n, r2) := read_digits 0 0 r1 in
        if (0 <? n) && String.eqb r2 "" then Some (if neg then - x else x)
        else None
      else None
  end.

(** An unsigned decimal literal as [(M, E)], standing for [M * 10^E]. *)
Definition read_number (s : string) : option (Z * Z) :=
  let '(ip, ni, r1) := read_digits 0 0 s in
  let '(m, nf, r2) :=
    match r1 with
    | String c r =>
        if Ascii.eqb c "." then
          let '(m, k, r') := read_digits ip 0 r in (m, k, r')
        else (ip, 0, r1)
    | EmptyString => (ip, 0, r1)
    end in
  if 0 <? ni + nf then
    match read_exponent r2 with
    | Some x => Some (m, x - nf)
    | None => None
    end
  else None.

(** Nearest integer to [n / d] for [0 <= n], [0 < d], ties to even. *)
Definition div_half_even (n d : Z) : Z :=
  let q := n / d in
  let r := n mod d in
  if 2 * r <? d then q
  else if d <? 2 * r then q + 1
  else if Z.even q then q else q + 1.

(** The binary64 value nearest to [n / d], for [0 < n] and [0 < d]. *)
Definition round_binary64 (neg : bool) (n d : Z) : pyfloat :=
  let k := Z.log2 n - Z.log2 d in
  let ge_pow :=
    if 0 <=? k then d * 2 ^ k <=? n else d <=? n * 2 ^ (- k) in
  let fl := if ge_pow then k else k - 1 in
  let e := Z.max (fl - 52) (-1074) in
  let m :=
    if 0 <=? e then div_half_even n (d * 2 ^ e)
    else div_half_even (n * 2 ^ (- e)) d in
  if m =? 0 then Ffin neg 0 0
  else if 1024 <=? Z.log2 m + e then Finf neg
  else Ffin neg m e.

Definition of_decimal (neg : bool) (M E : Z) : pyfloat :=
  if M =? 0 then Ffin neg 0 0
  else if 0 <=? E then round_binary64 neg (M * 10 ^ E) 1
  else round_binary64 neg M (10 ^ (- E)).

(** [float(s)]; [None] stands for the [ValueError] it raises. *)
Definition float_of_string (s : string) : option pyfloat :=
  match drop_underscores None (strip s) with
  | None => None
  | Some t =>
      let '(neg, body) := read_sign t in
      let lc := lower_str body in
      if String.eqb lc "inf" || String.eqb lc "infinity" then Some (Finf neg)
      else if String.eqb lc "nan" then Some Fnan
      else
        match read_number body with
        | Some (M, E) => Some (of_decimal neg M E)
        | None => None
        end
  end.

(** Largest [x] with [10^x <= n / d], found by counting up from 0 or
    down from -1. *)
Fixpoint log10_up (fuel : nat) (n d : Z) (x : Z) : Z :=
  match fuel with
  | O => x
  | S f => if 10 * d <=? n then log10_up f n (10 * d) (x + 1) else x
  end.

Fixpoint log10_down (fuel : nat) (n d : Z) (x : Z) : Z :=
  match fuel with
  | O => x
  | S f => if d <=? 10 * n then x else log10_down f (10 * n) d (x - 1)
  end.

Definition floor_log10 (n d : Z) : Z :=
  if d <=? n then log10_up (Z.to_nat (Z.log2 n) + 1) n d 0
  else log10_down (Z.to_nat (Z.log2 d) + 1) n d (-1).

Definition str_of_Z_abs (z : Z) : string :=
  NilEmpty.string_of_uint (N.to_uint (Z.abs_N z)).

(** The exponent field: a sign and at least two digits. *)
Definition exp_field (x : Z) : string :=
  let ds := str_of_Z_abs x in
  (if x <? 0 then "e-" else "e+")
    +:+ (if Z.abs x <? 10 then "0" +:+ ds else ds).

Definition mantissa_field (D : Z) : string :=
  match str_of_Z_abs D with
  | String c r => String c (String "." r)
  | EmptyString => EmptyString
  end.

(** ['%.6e' % x]. *)
Definition format_6e (x : pyfloat) : string :=
  match x with
  | Fnan => "nan"
  | Finf neg => if neg then "-inf" else "inf"
  | Ffin neg m e =>
      let sign := if neg then "-" else "" in
      if m =? 0 then sign +:+ "0.000000e+00"
      else
        let n := if 0 <=? e then m * 2 ^ e else m in
        let d := if 0 <=? e then 1 else 2 ^ (- e) in
        let x := floor_log10 n d in
        let D :=
          if 6 <=? x then div_half_even n (d * 10 ^ (x - 6))
          else div_half_even (n * 10 ^ (6 - x)) d in
        let '(D, x) := if D =? 10000000 then (1000000, x + 1) else (D, x) in
        sign +:+ mantissa_field D +:+ exp_field x
  end.

End PyFloat.

(** ** Exceptions, dictionaries and program state *)

Inductive exn : Type :=
| UnboundLocalError (var : string)
| IndexError
| KeyError (key : string)
| ValueError
| FileNotFoundError (name : string)
| OSError (name : string).

(** The value of an expression, or the exception it raises. *)
Inductive result (A : Type) : Type :=
| Ok (a : A)
| Err (e : exn).
Arguments Ok {A} a.
Arguments Err {A} e.

Definition rbind {A B} (r : result A) (k : A -> result B) : result B :=
  match r with Ok a => k a | Err e => Err e end.

Notation "'let!' x ':=' r 'in' k" := (rbind r (fun x => k))
  (at level 10, x name, r at level 100, k at level 200).

(** [l[i]] for a non-negative literal index. *)
Definition py_index (l : list string) (i : nat) : result string :=
  match nth_error l i with Some x => Ok x | None => Err IndexError end.

(** [l[-1]]. *)
Definition py_last (l : list string) : result string :=
  match last l with Some x => Ok x | None => Err IndexError end.

(** [float(s)] as an expression. *)
Definition py_float (s : string) : result PyFloat.pyfloat :=
  match PyFloat.float_of_string s with Some x => Ok x | None => Err ValueError end.

(** A [dict] with string keys and values, as its entries in insertion
    order.  Assigning to a key that is present replaces the value in
    place; a new key goes to the end. *)
Definition dict : Type := list (string * string).

Fixpoint dict_set (k v : string) (d : dict) : dict :=
  match d with
  | [] => [(k, v)]
  | (k', v') :: r =>
      if String.eqb k k' then (k, v) :: r else (k', v') :: dict_set k v r
  end.

Fixpoint dict_get (k : string) (d : dict) : result string :=
  match d with
  | [] => Err (KeyError k)
  | (k', v') :: r => if String.eqb k k' then Ok v' else dict_get k r
  end.

Definition dict_keys (d : dict) : list string := map fst d.

(** A text stream opened for writing: the file it writes and whether it
    has been closed. *)
Record stream : Type := { s_name : string; s_closed : bool }.

(** The local variables of [main] that live across statements, and the
    files of the working directory.  [None] is an unbound variable. *)
Record state : Type := {
  dc : dict;
  score_all : list string;
  flag_first_score : bool;
  fout : option stream;
  pc1 : option string;
  pc2 : option string;
  files : gmap string string
}.

Definition set_score_all (v : list string) (st : state) : state :=
  {| dc := dc st; score_all := v; flag_first_score := flag_first_score st;
     fout := fout st; pc1 := pc1 st; pc2 := pc2 st; files := files st |}.

Definition set_flag (v : bool) (st : state) : state :=
  {| dc := dc st; score_all := score_all st; flag_first_score := v;
     fout := fout st; pc1 := pc1 st; pc2 := pc2 st; files := files st |}.

Definition set_fout (v : option stream) (st : state) : state :=
  {| dc := dc st; score_all := score_all st;
     flag_first_score := flag_first_score st;
     fout := v; pc1 := pc1 st; pc2 := pc2 st; files := files st |}.

Definition set_pc1 (v : string) (st : state) : state :=
  {| dc := dc st; score_all := score_all st;
     flag_first_score := flag_first_score st;
     fout := fout st; pc1 := Some v; pc2 := pc2 st; files := files st |}.

Definition set_pc2 (v : string) (st : state) : state :=
  {| dc := dc st; score_all := score_all st;
     flag_first_score := flag_first_score st;
     fout := fout st; pc1 := pc1 st; pc2 := Some v; files := files st |}.

Definition set_files (v : gmap string string) (st : state) : state :=
  {| dc := dc st; score_all := score_all st;
     flag_first_score := flag_first_score st;
     fout := fout st; pc1 := pc1 st; pc2 := pc2 st; files := v |}.

(** How a statement ends: normally, or by an exception that nothing
    catches; either way with the state reached. *)
Inductive outcome : Type :=
| Normal (st : state)
| Raised (e : exn) (st : state).

Definition stmt : Type := state -> outcome.

Definition seq_stmt (c1 c2 : stmt) : stmt :=
  fun st => match c1 st with Normal st' => c2 st' | Raised e st' => Raised e st' end.

Declare Scope stmt_scope.
Delimit Scope stmt_scope with stmt.
Bind Scope stmt_scope with stmt.
Notation "c1 ;; c2" := (seq_stmt c1 c2)
  (at level 100, c2 at level 200, right associativity) : stmt_scope.

Definition skip : stmt := Normal.

(** [for x in xs: body]. *)
Fixpoint for_each {A} (body : A -> stmt) (xs : list A) : stmt :=
  match xs with
  | [] => skip
  | x :: r => (body x ;; for_each body r)%stmt
  end.

Definition final_state (o : outcome) : state :=
  match o with Normal st => st | Raised _ st => st end.

(** ** File operations *)

Definition nl : string := String "010" "".

(** The model holds one directory of regular files, the working
    directory, and keys each file by its name as the program spells it.
    Whether a file of a given name can be created there depends on the
    name. *)

Fixpoint has_nul (s : string) : bool :=
  match s with
  | EmptyString => false
  | String c r => (N_of_ascii c =? 0)%N || has_nul r
  end.

(** The length of a name in bytes, as the file system counts it: the
    code points above 127 take two bytes each in UTF-8. *)
Fixpoint byte_length (s : string) : Z :=
  match s with
  | EmptyString => 0
  | String c r => (if (N_of_ascii c <? 128)%N then 1 else 2) + byte_length r
  end.

(** The exception with which [open(name, 'w')] refuses to create a file,
    if it does: [ValueError] for a NUL character, which Python rejects
    before it asks the system; [FileNotFoundError] for a name with a
    path separator, which leads into a directory that the working
    directory does not have; [OSError] for a name of more than 255
    bytes, which is too long for the file system.  Paths are not
    resolved: a name with ["/"] never denotes a file of the working
    directory here, so the properties about created files are stated
    for names without one. *)
Definition open_error (name : string) : option exn :=
  if has_nul name then Some ValueError
  else if PyStr.contains "/" name then Some (FileNotFoundError name)
  else if 255 <? byte_length name then Some (OSError name)
  else None.

(** Why [open(name, 'w')] fails in a state, if it does: a file that
    exists can be opened; one that does not has to be created. *)
Definition open_fails (name : string) (st : state) : option exn :=
  match files st !! name with
  | Some _ => None
  | None => open_error name
  end.

(** [fout = open(name, 'w')]: the file is truncated, or created when
    its name allows it; otherwise the call raises and binds nothing. *)
Definition fout_open (name : string) : stmt := fun st =>
  match open_fails name st with
  | Some e => Raised e st
  | None =>
      Normal (set_fout (Some {| s_name := name; s_closed := false |})
                (set_files (<[name := ""]> (files st)) st))
  end.

(** [fout.write(text)]. *)
Definition fout_write (text : string) : stmt := fun st =>
  match fout st with
  | None => Raised (UnboundLocalError "fout") st
  | Some f =>
      if s_closed f then Raised ValueError st
      else Normal (set_files
                     (<[s_name f := default "" (files st !! s_name f) +:+ text]>
                        (files st)) st)
  end.

(** [fout.close()]; closing twice is allowed. *)
Definition fout_close : stmt := fun st =>
  match fout st with
  | None => Raised (UnboundLocalError "fout") st
  | Some f => Normal (set_fout (Some {| s_name := s_name f; s_closed := true |}) st)
  end.

(** [open(name, 'r').read()] followed by [splitlines(True)]. *)
Definition read_lines (name : string) (st : state) : result (list string) :=
  match files st !! name with
  | None => Err (FileNotFoundError name)
  | Some text => Ok (PyStr.splitlines_keep (PyStr.universal_newlines text))
  end.

(** ** The coordinate-label table *)

Definition lat_5x5 : list string := ["l21"].
Definition lat_4x4 : list string := ["l330"; "l331"; "l402"].
Definition qtr_core_4x4 : list string := ["l6"].
Definition rows_5x5 : list string := ["E"; "D"; "C"; "B"; "A"].
Definition rows_4x4 : list string := ["D"; "C"; "B"; "A"].

(** The key of lattice [lat], row index [i], column index [j]. *)
Definition coord_key (lat : string) (i j : nat) : string :=
  lat +:+ "(" +:+ PyStr.str_of_nat i +:+ "," +:+ PyStr.str_of_nat j +:+ ")".

(** One of the three nested loops that fill [dc]: rows outermost, then
    [range(ncols)], then the lattice names; [suffix] is what the loop
    appends to the label.  [rows[i]] is in range by the loop bound. *)
Definition fill_table (rows : list string) (ncols : nat) (lats : list string)
    (suffix : string) (d : dict) : dict :=
  fold_left (fun d i =>
    fold_left (fun d j =>
      fold_left (fun d lat =>
        dict_set (coord_key lat i j)
                 (nth i rows "" +:+ PyStr.str_of_nat (j + 1) +:+ suffix) d)
        lats d)
      (seq 0 ncols) d)
    (seq 0 (length rows)) d.

Definition build_dc : dict :=
  fill_table rows_4x4 4 qtr_core_4x4 "_"
    (fill_table rows_4x4 4 lat_4x4 ""
       (fill_table rows_5x5 5 lat_5x5 "" [])).

(** ** The scanning pass *)

(** The primary tally header branch. *)
Definition header_stmt (line : string) : stmt := fun st =>
  if PyStr.contains "TALLY" line && negb (PyStr.contains "_2" line) then
    let score := PyStr.split line in
    match py_index score 3 with
    | Err e => Raised e st
    | Ok name =>
        let st1 := set_score_all (score_all st ++ [name]) st in
        ((if negb (flag_first_score st1) then fout_close else skip) ;;
         (fun st2 =>
            match py_last (score_all st2) with
            | Err e => Raised e st2
            | Ok q => fout_open (q +:+ ".out") st2
            end) ;;
         (fun st3 => Normal (set_flag false st3)))%stmt st1
    end
  else Normal st.

(** The body of [for item in dc.keys()]. *)
Definition key_body (line : string) (item : string) : stmt := fun st =>
  let st1 := set_pc2 "" (set_pc1 "" st) in
  if PyStr.contains item line then
    let st2 := set_pc1 "" st1 in
    match dict_get item (dc st2) with
    | Err e => Raised e st2
    | Ok label =>
        if PyStr.contains "_" label then Normal (set_pc1 label st2)
        else Normal (set_pc2 label st2)
    end
  else Normal st1.

(** The "Distributed Cell" branch. *)
Definition cell_stmt (line : string) : stmt := fun st =>
  if PyStr.contains "Distributed Cell" line then
    ((fun st0 => for_each (key_body line) (dict_keys (dc st0)) st0) ;;
     (fun st1 =>
        match fout st1 with
        | None => Raised (UnboundLocalError "fout") st1
        | Some _ =>
            match pc1 st1 with
            | None => Raised (UnboundLocalError "pc1") st1
            | Some a =>
                match pc2 st1 with
                | None => Raised (UnboundLocalError "pc2") st1
                | Some b => fout_write (nl +:+ a +:+ b +:+ ": ") st1
                end
            end
        end))%stmt st
  else Normal st.

(** ['%.6e' % float(val[i])]. *)
Definition sci_field (val : list string) (i : nat) : result string :=
  let! tok := py_index val i in
  let! x := py_float tok in
  Ok (PyFloat.format_6e x).

(** The mean and standard deviation of a result line. *)
Definition mean_std (line : string) : result (string * string) :=
  let val := PyStr.split line in
  let! v0 := py_index val 0 in
  if String.eqb v0 "Flux" then
    let! mean := sci_field val 1 in
    let! std := sci_field val 3 in
    Ok (mean, std)
  else
    let! mean := sci_field val 2 in
    let! std := sci_field val 4 in
    Ok (mean, std).

(** The "+/-" branch. *)
Definition result_stmt (line : string) : stmt := fun st =>
  if PyStr.contains "+/-" line then
    match mean_std line with
    | Err e => Raised e st
    | Ok (mean, std) => fout_write (mean +:+ ", " +:+ std +:+ ", ") st
    end
  else Normal st.

(** The body of [for line in fin]. *)
Definition scan_line (line : string) : stmt :=
  (header_stmt line ;; cell_stmt line ;; result_stmt line)%stmt.

(** The whole [with open('tallies.out')] block and the [fout.close()]
    after it. *)
Definition scan (lines : list string) : stmt :=
  (for_each scan_line lines ;; fout_close)%stmt.

(** ** The two passes over the written files *)

(** One round of "remove empty line at header, add empty line at end". *)
Definition strip_header (score : string) : stmt := fun st =>
  match read_lines (score +:+ ".out") st with
  | Err e => Raised e st
  | Ok data =>
      (fout_open (score +:+ ".out") ;;
       fout_write (PyStr.join (tail data)) ;;
       fout_write nl ;;
       fout_close)%stmt st
  end.

(** [sorted] on a list of [str]: ascending by code points. *)
Definition sorted (ls : list string) : list string :=
  merge_sort String.le ls.

(** One round of "sort entries". *)
Definition sort_entries (score : string) : stmt := fun st =>
  match read_lines (score +:+ ".out") st with
  | Err e => Raised e st
  | Ok data =>
      (fout_open (score +:+ ".out") ;;
       fout_write (PyStr.join (sorted data)) ;;
       fout_close)%stmt st
  end.

Definition post_passes : stmt :=
  ((fun st => for_each strip_header (score_all st) st) ;;
   (fun st => for_each sort_entries (score_all st) st))%stmt.

Definition initial_state (fs : gmap string string) : state :=
  {| dc := build_dc; score_all := []; flag_first_score := true;
     fout := None; pc1 := None; pc2 := None; files := fs |}.

(** [main()], run on the text of [tallies.out] in a working directory
    whose other files are [fs].  The report is read apart from [fs]: a
    quantity that is itself named "tallies" would make the run write
    the file it is reading, which is outside this model, as are a
    directory structure behind file names and output buffering. *)
Definition main (report : string) (fs : gmap string string) : outcome :=
  (scan (PyStr.file_lines report) ;; post_passes)%stmt (initial_state fs).

(** ** Vocabulary of the properties *)

(** A line that starts a new quantity: the test of the header branch. *)
Definition is_primary_header (line : string) : bool :=
  PyStr.contains "TALLY" line && negb (PyStr.contains "_2" line).

(** The (lattice, row, column) triples one of the filling loops visits,
    in the order it visits them. *)
Definition enumerate (rows : list string) (ncols : nat) (lats : list string)
    : list (string * nat * nat) :=
  flat_map (fun i =>
    flat_map (fun j => map (fun lat => (lat, i, j)) lats) (seq 0 ncols))
    (seq 0 (length rows)).

Definition enumerated : list (string * nat * nat) :=
  enumerate rows_5x5 5 lat_5x5 ++ enumerate rows_4x4 4 lat_4x4
    ++ enumerate rows_4x4 4 qtr_core_4x4.

Definition key_of (c : string * nat * nat) : string :=
  let '(lat, i, j) := c in coord_key lat i j.

(** States the scanning loop can be in between two lines. *)
Definition reachable (st : state) : Prop :=
  exists fs lines, for_each scan_line lines (initial_state fs) = Normal st.

(** What the key loop of the "Distributed Cell" branch leaves in [pc1]
    and [pc2] for a line, read off by running the loop itself. *)
Definition captured_label (line : string) : string :=
  let st := final_state
              (for_each (key_body line) (dict_keys build_dc) (initial_state ∅)) in
  default "" (pc1 st) +:+ default "" (pc2 st).

(** What the three branches write for one line when nothing is raised. *)
Definition written_by (line : string) : string :=
  (if PyStr.contains "Distributed Cell" line
   then nl +:+ captured_label line +:+ ": " else "")
  +:+
  (if PyStr.contains "+/-" line
   then match mean_std line with
        | Ok (mean, std) => mean +:+ ", " +:+ std +:+ ", "
        | Err _ => ""
        end
   else "").

(** The sort pass as a function on the text of one file. *)
Definition sort_text (text : string) : string :=
  PyStr.join (sorted (PyStr.splitlines_keep (PyStr.universal_newlines text))).

(** Every character of a string passes a test. *)
Fixpoint all_chars (p : ascii -> bool) (s : string) : bool :=
  match s with
  | EmptyString => true
  | String c r => p c && all_chars p r
  end.

Definition no_cr (s : string) : bool :=
  all_chars (fun c => negb (Ascii.eqb c "013")) s.

Definition no_break (s : string) : bool :=
  all_chars (fun c => negb (PyStr.is_linebreak c)) s.

(** A terminated line: no CR, and exactly one break character, the
    last one. *)
Fixpoint complete_line (l : string) : bool :=
  match l with
  | EmptyString => false
  | String c r =>
      if PyStr.is_linebreak c
      then String.eqb r "" && negb (Ascii.eqb c "013")
      else complete_line r
  end.

(** Lines as [splitlines(True)] returns them from text without CR: all
    terminated, except that the last may be a non-empty run without a
    break character. *)
Fixpoint lines_ok (ls : list string) : bool :=
  match ls with
  | [] => true
  | l :: r =>
      match r with
      | [] => complete_line l || (no_break l && negb (String.eqb l ""))
      | _ :: _ => complete_line l && lines_ok r
      end
  end.

(** Text that reads back as terminated lines only. *)
Definition terminated (text : string) : Prop :=
  Forall (fun l => complete_line l = true)
         (PyStr.splitlines_keep (PyStr.universal_newlines text)).

(** What the header-strip pass makes of the text of one file. *)
Definition strip_text (text : string) : string :=
  PyStr.join (tail (PyStr.splitlines_keep (PyStr.universal_newlines text)))
    +:+ nl.

(** A statement keeps a relation between the state it starts in and
    the state it ends in, however it ends. *)
Definition stable (R : state -> state -> Prop) (c : stmt) : Prop :=
  forall st, R st (final_state (c st)).

(** The table of the second state is that of the first. *)
Definition same_dc (a b : state) : Prop := dc b = dc a.

(** A stream open for writing on [name]. *)
Definition open_on (name : string) : option stream :=
  Some {| s_name := name; s_closed := false |}.

(** The stream bound to [fout] once a further header has closed it. *)
Definition closed_fout (o : option stream) : option stream :=
  option_map (fun f => {| s_name := s_name f; s_closed := true |}) o.

(** [pc1] and [pc2] bound to the given strings. *)
Definition with_pcs (a b : string) (st : state) : state :=
  set_pc2 b (set_pc1 a st).

(** The second state differs from the first at most in [pc1], [pc2]
    and the files. *)
Definition same_ctrl (a b : state) : Prop :=
  dc b = dc a /\ score_all b = score_all a
  /\ flag_first_score b = flag_first_score a /\ fout b = fout a.

(** What holds between two lines of the scan: the table is the built
    one; before the first primary header nothing is open; after it the
    stream is open on the file of the last registered quantity; and the
    file of every registered quantity exists. *)
Definition scan_inv (st : state) : Prop :=
  dc st = build_dc /\
  match last (score_all st) with
  | None => fout st = None /\ flag_first_score st = true
  | Some q =>
      fout st = open_on (q +:+ ".out") /\ flag_first_score st = false
      /\ is_Some (files st !! (q +:+ ".out"))
  end /\
  Forall (fun q => is_Some (files st !! (q +:+ ".out"))) (score_all st).

(** The exceptions a run can end with before any stream is open. *)
Definition early_error (e : exn) : Prop :=
  e = UnboundLocalError "fout" \/ e = IndexError \/ e = ValueError.

(** Sample reports used to evaluate [main]. *)
Definition report_one_pin : string :=
  "TALLY 1 2 flux_All" +:+ nl
  +:+ " Distributed Cell 161 l21(0,0)" +:+ nl
  +:+ "Flux 1.0 +/- 2.0" +:+ nl.

Definition report_two_pins : string :=
  "TALLY 1 2 flux_All" +:+ nl
  +:+ " Distributed Cell 1 l21(4,0)" +:+ nl
  +:+ "Flux 2.0 +/- 0.2" +:+ nl
  +:+ " Distributed Cell 2 l21(0,0)" +:+ nl
  +:+ "Flux 1.0 +/- 0.1" +:+ nl.

(** A token as [split()] returns it: not empty and free of white space. *)
Definition is_token (t : string) : bool :=
  negb (String.eqb t "") && all_chars (fun c => negb (PyStr.is_space c)) t.


(** A line on which at least one of the three branches acts. *)
Definition has_cue (line : string) : bool :=
  is_primary_header line || PyStr.contains "Distributed Cell" line
  || PyStr.contains "+/-" line.

(** A quantity whose file the working directory can hold under the
    name the program gives it: the name has no NUL and no path
    separator, and with its extension at most 255 bytes. *)
Definition plain_name (q : string) : Prop :=
  open_error (q +:+ ".out") = None.










(** The label the filling loops assign to an enumerated coordinate: the
    row letter of its lattice size, the column counted from 1, and the
    underscore for the quarter-core lattice. *)
Definition expected_label (c : string * nat * nat) : string :=
  let '(lat, i, j) := c in
  nth i (if String.eqb lat "l21" then rows_5x5 else rows_4x4) ""
  +:+ PyStr.str_of_nat (j + 1)
  +:+ (if String.eqb lat "l6" then "_" else "").








(** What the "+/-" branch makes of the two tokens it reads. *)
Definition sci_pair (tm ts : string) : result (string * string) :=
  match PyFloat.float_of_string tm, PyFloat.float_of_string ts with
  | Some xm, Some xs => Ok (PyFloat.format_6e xm, PyFloat.format_6e xs)
  | _, _ => Err ValueError
  end.

(** The body of the key loop without the two assignments at its top:
    the loop as it would run with [pc1] and [pc2] emptied once, before
    it, so that the labels of earlier keys are kept. *)
Definition key_body_kept (line : string) (item : string) : stmt := fun st =>
  if PyStr.contains item line then
    let st2 := set_pc1 "" st in
    match dict_get item (dc st2) with
    | Err e => Raised e st2
    | Ok label =>
        if PyStr.contains "_" label then Normal (set_pc1 label st2)
        else Normal (set_pc2 label st2)
    end
  else Normal st.

(** The prefix [pc1 + pc2] that loop would give a line. *)
Definition kept_label (line : string) : string :=
  let st := final_state
              (for_each (key_body_kept line) (dict_keys build_dc)
                 (with_pcs "" "" (initial_state ∅))) in
  default "" (pc1 st) +:+ default "" (pc2 st).

Definition report_quarter_core_pin : string :=
  "TALLY 1 2 flux_All" +:+ nl
  +:+ " Distributed Cell 7 l6(3,3) l21(0,0)" +:+ nl
  +:+ "Flux 5.0 +/- 6.0" +:+ nl.

Definition report_quarter_core_inner : string :=
  "TALLY 1 2 flux_All" +:+ nl
  +:+ " Distributed Cell 7 l6(0,1) l21(0,0)" +:+ nl
  +:+ "Flux 5.0 +/- 6.0" +:+ nl.

(** * Properties *)

(** ** Outcomes and loops *)

Lemma seq_stmt_normal (c1 c2 : stmt) st st1 :
  c1 st = Normal st1 -> (c1 ;; c2)%stmt st = c2 st1.
Proof. unfold seq_stmt. intros ->. reflexivity. Qed.

Lemma seq_stmt_raised (c1 c2 : stmt) st e st1 :
  c1 st = Raised e st1 -> (c1 ;; c2)%stmt st = Raised e st1.
Proof. unfold seq_stmt. intros ->. reflexivity. Qed.

Lemma seq_stmt_skip_r (c : stmt) st : (c ;; skip)%stmt st = c st.
Proof. unfold seq_stmt, skip. destruct (c st); reflexivity. Qed.

Lemma for_each_cons {A} (body : A -> stmt) x xs st :
  for_each body (x :: xs) st =
    match body x st with
    | Normal st1 => for_each body xs st1
    | Raised e st1 => Raised e st1
    end.
Proof. reflexivity. Qed.


(** A relation between the state before and after, kept by every
    statement of a sequence or loop, is kept by the whole. *)
Section Stable.
Variable R : state -> state -> Prop.
Hypothesis R_refl : forall st, R st st.
Hypothesis R_trans : forall a b c, R a b -> R b c -> R a c.

Lemma stable_skip : stable R skip.
Proof. intros st. apply R_refl. Qed.

Lemma stable_seq c1 c2 :
  stable R c1 -> stable R c2 -> stable R (c1 ;; c2)%stmt.
Proof.
  intros H1 H2 st. specialize (H1 st). unfold seq_stmt.
  destruct (c1 st) as [st1|e st1]; simpl in *.
  - eapply R_trans; [exact H1 | apply H2].
  - exact H1.
Qed.

Lemma stable_for_each {A} (body : A -> stmt) xs :
  (forall x, stable R (body x)) -> stable R (for_each body xs).
Proof.
  intros Hb. induction xs as [|x xs IH]; simpl.
  - apply stable_skip.
  - apply stable_seq; [apply Hb | exact IH].
Qed.
End Stable.

(** ** The table is only read *)

Lemma same_dc_refl st : same_dc st st.
Proof. reflexivity. Qed.

Lemma same_dc_trans a b c : same_dc a b -> same_dc b c -> same_dc a c.
Proof. unfold same_dc. congruence. Qed.

Lemma fout_open_dc name : stable same_dc (fout_open name).
Proof.
  intros st. unfold fout_open. destruct (open_fails name st); reflexivity.
Qed.

Lemma fout_write_dc text : stable same_dc (fout_write text).
Proof.
  intros st. unfold fout_write.
  destruct (fout st) as [f|]; [destruct (s_closed f)|]; reflexivity.
Qed.

Lemma fout_close_dc : stable same_dc fout_close.
Proof. intros st. unfold fout_close. destruct (fout st); reflexivity. Qed.

Lemma header_stmt_dc line : stable same_dc (header_stmt line).
Proof.
  intros st. unfold header_stmt.
  destruct (PyStr.contains "TALLY" line && negb (PyStr.contains "_2" line));
    [|reflexivity].
  destruct (py_index (PyStr.split line) 3) as [name|e]; [|reflexivity].
  set (st1 := set_score_all _ st).
  change (same_dc st1 (final_state
    (((if negb (flag_first_score st1) then fout_close else skip) ;;
      (fun st2 => match py_last (score_all st2) with
                  | Err e => Raised e st2
                  | Ok q => fout_open (q +:+ ".out") st2
                  end) ;;
      (fun st3 => Normal (set_flag false st3)))%stmt st1))).
  apply (stable_seq same_dc same_dc_trans).
  - destruct (negb (flag_first_score st1));
      [apply fout_close_dc | apply (stable_skip same_dc same_dc_refl)].
  - apply (stable_seq same_dc same_dc_trans).
    + intros st2. destruct (py_last (score_all st2));
        [apply fout_open_dc | reflexivity].
    + intros st3. reflexivity.
Qed.

Lemma key_body_dc line item : stable same_dc (key_body line item).
Proof.
  intros st. unfold key_body.
  destruct (PyStr.contains item line); [|reflexivity].
  destruct (dict_get item _) as [label|e]; [|reflexivity].
  destruct (PyStr.contains "_" label); reflexivity.
Qed.

Lemma cell_stmt_dc line : stable same_dc (cell_stmt line).
Proof.
  intros st. unfold cell_stmt.
  destruct (PyStr.contains "Distributed Cell" line); [|reflexivity].
  apply (stable_seq same_dc same_dc_trans).
  - intros st0.
    apply (stable_for_each same_dc same_dc_refl same_dc_trans), key_body_dc.
  - intros st1. destruct (fout st1) as [f|] eqn:Hf; [|reflexivity].
    destruct (pc1 st1); [|reflexivity]. destruct (pc2 st1); [|reflexivity].
    apply fout_write_dc.
Qed.

Lemma result_stmt_dc line : stable same_dc (result_stmt line).
Proof.
  intros st. unfold result_stmt.
  destruct (PyStr.contains "+/-" line); [|reflexivity].
  destruct (mean_std line) as [[mean std]|e]; [|reflexivity].
  apply fout_write_dc.
Qed.

Lemma scan_line_dc line : stable same_dc (scan_line line).
Proof.
  unfold scan_line.
  repeat apply (stable_seq same_dc same_dc_trans);
    auto using header_stmt_dc, cell_stmt_dc, result_stmt_dc.
Qed.

Lemma strip_header_dc score : stable same_dc (strip_header score).
Proof.
  intros st. unfold strip_header.
  destruct (read_lines _ st) as [data|e]; [|reflexivity].
  repeat apply (stable_seq same_dc same_dc_trans);
    auto using fout_open_dc, fout_write_dc, fout_close_dc.
Qed.

Lemma sort_entries_dc score : stable same_dc (sort_entries score).
Proof.
  intros st. unfold sort_entries.
  destruct (read_lines _ st) as [data|e]; [|reflexivity].
  repeat apply (stable_seq same_dc same_dc_trans);
    auto using fout_open_dc, fout_write_dc, fout_close_dc.
Qed.

Lemma scan_dc lines : stable same_dc (scan lines).
Proof.
  unfold scan. apply (stable_seq same_dc same_dc_trans).
  - apply (stable_for_each same_dc same_dc_refl same_dc_trans), scan_line_dc.
  - apply fout_close_dc.
Qed.

Lemma post_passes_dc : stable same_dc post_passes.
Proof.
  unfold post_passes. apply (stable_seq same_dc same_dc_trans); intros st;
    apply (stable_for_each same_dc same_dc_refl same_dc_trans);
    auto using strip_header_dc, sort_entries_dc.
Qed.

(** ** Dictionaries *)

Lemma dict_get_In k v d : dict_get k d = Ok v -> In (k, v) d.
Proof.
  induction d as [|[k' v'] d IH]; simpl; [discriminate|].
  destruct (String.eqb_spec k k') as [->|Hne].
  - intros [= ->]. left. reflexivity.
  - intros H. right. apply IH, H.
Qed.

Lemma dict_get_key k d : In k (dict_keys d) -> exists v, dict_get k d = Ok v.
Proof.
  induction d as [|[k' v'] d IH]; simpl; [contradiction|].
  intros [Hk|Hk]; destruct (String.eqb_spec k k') as [->|Hne]; eauto.
  simpl in Hk. congruence.
Qed.

Lemma dict_unique_value k v v' (d : dict) :
  NoDup (dict_keys d) -> In (k, v) d -> In (k, v') d -> v = v'.
Proof.
  induction d as [|[k0 v0] d IH]; simpl; [contradiction|].
  intros Hnd. apply NoDup_cons in Hnd as [Hnotin Hnd].
  assert (Hfst : forall w, In (k0, w) d -> k0 ∈ dict_keys d).
  { intros w Hw. apply list_elem_of_In.
    apply (in_map fst) in Hw. exact Hw. }
  intros [[= -> ->]|H1] [[= <-]|H2]; try reflexivity.
  - exfalso. eapply Hnotin, Hfst, H2.
  - subst. exfalso. eapply Hnotin, Hfst, H1.
  - apply IH; assumption.
Qed.

Lemma dict_keys_build_dc : dict_keys build_dc = map key_of enumerated.
Proof. vm_compute. reflexivity. Qed.

(** C9.  The table [dc] is filled before the scan and no statement of
    the scan or of the two later passes changes it; the keys built from
    the enumerated (lattice, row, column) triples are pairwise distinct,
    they are exactly the keys of the table, and each enumerated triple
    therefore resolves to one label only. *)
Theorem coordinate_table_fixed_and_keys_unique :
  (forall report fs, dc (final_state (main report fs)) = build_dc)
  /\ (forall line st, dc (final_state (scan_line line st)) = dc st)
  /\ (forall score st, dc (final_state (strip_header score st)) = dc st)
  /\ (forall score st, dc (final_state (sort_entries score st)) = dc st)
  /\ dict_keys build_dc = map key_of enumerated
  /\ NoDup enumerated
  /\ NoDup (dict_keys build_dc)
  /\ (forall c1 c2, In c1 enumerated -> In c2 enumerated ->
        key_of c1 = key_of c2 -> c1 = c2)
  /\ (forall c, In c enumerated -> exists label,
        dict_get (key_of c) build_dc = Ok label
        /\ forall label', In (key_of c, label') build_dc -> label' = label).
Proof.
  assert (Hnd : NoDup (map key_of enumerated)) by compute_done.
  assert (Hinj : forall c1 c2, In c1 enumerated -> In c2 enumerated ->
                               key_of c1 = key_of c2 -> c1 = c2).
  { intros c1 c2 H1 H2 Heq.
    apply list_elem_of_In in H1, H2.
    apply list_elem_of_lookup in H1 as [i Hi], H2 as [j Hj].
    assert (map key_of enumerated !! i = Some (key_of c1))
      by (rewrite list_lookup_fmap, Hi; reflexivity).
    assert (map key_of enumerated !! j = Some (key_of c2))
      by (rewrite list_lookup_fmap, Hj; reflexivity).
    assert (i = j) by (eapply NoDup_lookup; eauto; congruence).
    congruence. }
  split_and!.
  - intros report fs. unfold main.
    apply (stable_seq same_dc same_dc_trans _ _ (scan_dc _) post_passes_dc).
  - intros. apply scan_line_dc.
  - intros. apply strip_header_dc.
  - intros. apply sort_entries_dc.
  - apply dict_keys_build_dc.
  - compute_done.
  - rewrite dict_keys_build_dc. exact Hnd.
  - exact Hinj.
  - intros c Hc.
    destruct (dict_get_key (key_of c) build_dc) as [label Hget].
    { rewrite dict_keys_build_dc. apply in_map, Hc. }
    exists label. split; [exact Hget|].
    intros label' Hin. symmetry.
    eapply dict_unique_value; [|apply dict_get_In, Hget|exact Hin].
    rewrite dict_keys_build_dc. exact Hnd.
Qed.

Lemma coordinate_table_fixed_and_keys_unique_witness :
  In ("l6", 3%nat, 3%nat) enumerated
  /\ exists label,
       dict_get (key_of ("l6", 3%nat, 3%nat)) build_dc = Ok label
       /\ forall label',
            In (key_of ("l6", 3%nat, 3%nat), label') build_dc -> label' = label.
Proof.
  assert (Hin : In ("l6", 3%nat, 3%nat) enumerated).
  { apply list_elem_of_In. compute_done. }
  split; [exact Hin|].
  exact (proj2 (proj2 (proj2 (proj2 (proj2 (proj2 (proj2 (proj2
           coordinate_table_fixed_and_keys_unique))))))) _ Hin).
Defined.

(** ** Writing to the open stream *)

Lemma fout_write_open text st name :
  fout st = open_on name ->
  fout_write text st =
    Normal (set_files
              (<[name := default "" (files st !! name) +:+ text]> (files st)) st).
Proof. unfold fout_write, open_on. intros ->. reflexivity. Qed.

Lemma fout_write_unbound text st :
  fout st = None -> fout_write text st = Raised (UnboundLocalError "fout") st.
Proof. unfold fout_write. intros ->. reflexivity. Qed.

Lemma app_cons_str x (a b : string) : String x a +:+ b = String x (a +:+ b).
Proof. reflexivity. Qed.

Lemma app_nil_l_str (a : string) : "" +:+ a = a.
Proof. reflexivity. Qed.

Lemma app_assoc_str (a b c : string) : (a +:+ b) +:+ c = a +:+ (b +:+ c).
Proof.
  induction a as [|x a IH]; [reflexivity|].
  rewrite !app_cons_str, IH. reflexivity.
Qed.

Lemma app_nil_r_str (a : string) : a +:+ "" = a.
Proof.
  induction a as [|x a IH]; [reflexivity|].
  rewrite app_cons_str, IH. reflexivity.
Qed.

(** ** The key loop keeps the last key only *)

Lemma key_body_reset line item st :
  key_body line item st = key_body line item (with_pcs "" "" st).
Proof. destruct st. reflexivity. Qed.

Lemma key_body_normal line item st :
  In item (dict_keys (dc st)) ->
  exists a b, key_body line item st = Normal (with_pcs a b st).
Proof.
  intros Hin. destruct (dict_get_key _ _ Hin) as [v Hv].
  unfold key_body. destruct (PyStr.contains item line).
  - change (dc (set_pc1 "" (set_pc2 "" (set_pc1 "" st)))) with (dc st).
    rewrite Hv. destruct (PyStr.contains "_" v).
    + exists v, "". destruct st. reflexivity.
    + exists "", v. destruct st. reflexivity.
  - exists "", "". reflexivity.
Qed.

Lemma key_loop_last line ks k st :
  (forall x, In x ks -> In x (dict_keys (dc st))) ->
  for_each (key_body line) (ks ++ [k]) st = key_body line k st.
Proof.
  revert st. induction ks as [|k0 ks IH]; intros st Hks.
  - simpl. apply seq_stmt_skip_r.
  - simpl. unfold seq_stmt.
    destruct (key_body_normal line k0 st) as (a & b & ->).
    { apply Hks. left. reflexivity. }
    rewrite IH.
    + rewrite key_body_reset. rewrite (key_body_reset line k st).
      destruct st. reflexivity.
    + intros x Hx. apply Hks. right. exact Hx.
Qed.

Lemma key_loop_build_dc line st :
  dc st = build_dc ->
  for_each (key_body line) (dict_keys (dc st)) st =
    Normal (if PyStr.contains "l6(3,3)" line
            then with_pcs "A4_" "" st else with_pcs "" "" st).
Proof.
  intros Hdc.
  assert (Hk : dict_keys (dc st) = removelast (dict_keys build_dc) ++ ["l6(3,3)"]).
  { rewrite Hdc. vm_compute. reflexivity. }
  rewrite Hk, key_loop_last.
  - unfold key_body. destruct (PyStr.contains "l6(3,3)" line); [|reflexivity].
    change (dc (set_pc1 "" (set_pc2 "" (set_pc1 "" st)))) with (dc st).
    rewrite Hdc. destruct st. reflexivity.
  - intros x Hx. rewrite Hk. apply in_or_app. left. exact Hx.
Qed.

Lemma captured_label_last_key line :
  captured_label line = if PyStr.contains "l6(3,3)" line then "A4_" else "".
Proof.
  unfold captured_label. rewrite (key_loop_build_dc line (initial_state ∅) eq_refl).
  destruct (PyStr.contains "l6(3,3)" line); reflexivity.
Qed.

(** ** The three branches, one at a time *)

Lemma same_ctrl_refl st : same_ctrl st st.
Proof. repeat split. Qed.

Lemma same_ctrl_trans a b c : same_ctrl a b -> same_ctrl b c -> same_ctrl a c.
Proof. unfold same_ctrl. intros (?&?&?&?) (?&?&?&?). repeat split; congruence. Qed.

Lemma header_stmt_skip line st :
  is_primary_header line = false -> header_stmt line st = Normal st.
Proof. unfold header_stmt, is_primary_header. intros ->. reflexivity. Qed.

(** ** Opening a file for writing *)

Lemma open_error_kind name e :
  open_error name = Some e ->
  (e = ValueError /\ has_nul name = true)
  \/ (e = FileNotFoundError name /\ PyStr.contains "/" name = true)
  \/ (e = OSError name /\ PyStr.contains "/" name = false
      /\ 255 < byte_length name).
Proof.
  unfold open_error. destruct (has_nul name).
  - intros [= <-]. left. split; reflexivity.
  - destruct (PyStr.contains "/" name).
    + intros [= <-]. right. left. split; reflexivity.
    + destruct (255 <? byte_length name) eqn:Hlen; [|discriminate].
      intros [= <-]. right. right. split; [reflexivity|]. split; [reflexivity|].
      apply Z.ltb_lt, Hlen.
Qed.

Lemma open_error_not_early name e :
  open_error name = Some e -> e <> UnboundLocalError "fout" /\ e <> IndexError.
Proof.
  intros H. destruct (open_error_kind name e H) as [(-> & _)|[(-> & _)|(-> & _)]];
    split; discriminate.
Qed.

Lemma open_fails_error name st e :
  open_fails name st = Some e ->
  files st !! name = None /\ open_error name = Some e.
Proof.
  unfold open_fails. destruct (files st !! name); [discriminate|].
  intros H. split; [reflexivity|exact H].
Qed.

Lemma open_fails_exists name st :
  is_Some (files st !! name) -> open_fails name st = None.
Proof. unfold open_fails. intros [c ->]. reflexivity. Qed.


Lemma open_fails_files name a b :
  files a = files b -> open_fails name a = open_fails name b.
Proof. unfold open_fails. intros ->. reflexivity. Qed.

Lemma fout_open_ok name st :
  open_fails name st = None ->
  fout_open name st =
    Normal (set_fout (Some {| s_name := name; s_closed := false |})
              (set_files (<[name := ""]> (files st)) st)).
Proof. unfold fout_open. intros ->. reflexivity. Qed.

Lemma fout_open_raised name st e :
  open_fails name st = Some e -> fout_open name st = Raised e st.
Proof. unfold fout_open. intros ->. reflexivity. Qed.

Lemma header_stmt_primary line st :
  is_primary_header line = true ->
  (flag_first_score st = false -> fout st <> None) ->
  header_stmt line st =
    match nth_error (PyStr.split line) 3 with
    | None => Raised IndexError st
    | Some q =>
        match open_fails (q +:+ ".out") st with
        | None =>
            Normal {| dc := dc st; score_all := score_all st ++ [q];
                      flag_first_score := false; fout := open_on (q +:+ ".out");
                      pc1 := pc1 st; pc2 := pc2 st;
                      files := <[q +:+ ".out" := ""]> (files st) |}
        | Some e =>
            Raised e {| dc := dc st; score_all := score_all st ++ [q];
                        flag_first_score := flag_first_score st;
                        fout := if flag_first_score st then fout st
                                else closed_fout (fout st);
                        pc1 := pc1 st; pc2 := pc2 st; files := files st |}
        end
    end.
Proof.
  unfold header_stmt, is_primary_header. intros -> Hflag.
  unfold py_index. destruct (nth_error (PyStr.split line) 3) as [q|]; [|reflexivity].
  destruct st as [d sa fl fo p1 p2 fs]. simpl in *.
  unfold seq_stmt, py_last. simpl.
  destruct fl; simpl.
  - rewrite last_snoc. unfold fout_open, open_fails. simpl.
    destruct (fs !! (q +:+ ".out")); [reflexivity|].
    destruct (open_error (q +:+ ".out")); reflexivity.
  - unfold fout_close. simpl. destruct fo as [f|]; [|exfalso; apply Hflag; reflexivity].
    simpl. rewrite last_snoc. unfold fout_open, open_fails. simpl.
    destruct (fs !! (q +:+ ".out")); [reflexivity|].
    destruct (open_error (q +:+ ".out")); reflexivity.
Qed.

Lemma cell_stmt_skip line st :
  PyStr.contains "Distributed Cell" line = false -> cell_stmt line st = Normal st.
Proof. unfold cell_stmt. intros ->. reflexivity. Qed.

Lemma cell_stmt_spec line st :
  dc st = build_dc ->
  PyStr.contains "Distributed Cell" line = true ->
  cell_stmt line st =
    fout_write (nl +:+ captured_label line +:+ ": ")
      (with_pcs (captured_label line) "" st).
Proof.
  intros Hdc Hc. unfold cell_stmt. rewrite Hc. unfold seq_stmt.
  rewrite (key_loop_build_dc line st Hdc), captured_label_last_key.
  destruct (PyStr.contains "l6(3,3)" line);
    destruct st as [d sa fl [f|] p1 p2 fs]; reflexivity.
Qed.

Lemma result_stmt_skip line st :
  PyStr.contains "+/-" line = false -> result_stmt line st = Normal st.
Proof. unfold result_stmt. intros ->. reflexivity. Qed.

(** The branches on a state whose stream is open on [name]. *)
Lemma cell_stmt_open line st name c :
  dc st = build_dc -> fout st = open_on name -> files st !! name = Some c ->
  exists st', cell_stmt line st = Normal st' /\ same_ctrl st st'
    /\ files st' =
       <[name := c +:+ (if PyStr.contains "Distributed Cell" line
                        then nl +:+ captured_label line +:+ ": " else "")]>
         (files st).
Proof.
  intros Hdc Hf Hc.
  destruct (PyStr.contains "Distributed Cell" line) eqn:Hcell.
  - rewrite (cell_stmt_spec line st Hdc Hcell).
    rewrite (fout_write_open _ _ name) by (destruct st; exact Hf).
    eexists. split; [reflexivity|]. split.
    + destruct st; repeat split.
    + destruct st; simpl in *. rewrite Hc. reflexivity.
  - rewrite (cell_stmt_skip line st Hcell). exists st.
    split; [reflexivity|]. split; [apply same_ctrl_refl|].
    rewrite app_nil_r_str. symmetry. apply insert_id, Hc.
Qed.

Lemma result_stmt_open line st st' name c :
  fout st = open_on name -> files st !! name = Some c ->
  result_stmt line st = Normal st' ->
  same_ctrl st st'
  /\ pc1 st' = pc1 st /\ pc2 st' = pc2 st
  /\ files st' =
     <[name := c +:+ (if PyStr.contains "+/-" line
                      then match mean_std line with
                           | Ok (mean, std) => mean +:+ ", " +:+ std +:+ ", "
                           | Err _ => ""
                           end
                      else "")]> (files st).
Proof.
  intros Hf Hc. unfold result_stmt.
  destruct (PyStr.contains "+/-" line).
  - destruct (mean_std line) as [[mean std]|e]; [|discriminate].
    rewrite (fout_write_open _ _ name Hf). intros [= <-].
    split; [repeat split|]. split; [reflexivity|]. split; [reflexivity|].
    simpl. rewrite Hc. reflexivity.
  - intros [= <-]. split; [apply same_ctrl_refl|].
    split; [reflexivity|]. split; [reflexivity|].
    rewrite app_nil_r_str. symmetry. apply insert_id, Hc.
Qed.

(** A result line succeeds exactly when its two fields convert. *)
Lemma result_stmt_open_total line st name :
  fout st = open_on name ->
  (PyStr.contains "+/-" line = true -> exists ms, mean_std line = Ok ms) ->
  exists st', result_stmt line st = Normal st'.
Proof.
  intros Hf Hok. unfold result_stmt.
  destruct (PyStr.contains "+/-" line); [|eauto].
  destruct (Hok eq_refl) as [[mean std] ->].
  rewrite (fout_write_open _ _ name Hf). eauto.
Qed.

Lemma cell_result_open line st st' name c :
  dc st = build_dc -> fout st = open_on name -> files st !! name = Some c ->
  (cell_stmt line ;; result_stmt line)%stmt st = Normal st' ->
  same_ctrl st st' /\ files st' = <[name := c +:+ written_by line]> (files st).
Proof.
  intros Hdc Hf Hc. unfold seq_stmt.
  destruct (cell_stmt_open line st name c Hdc Hf Hc) as (st1 & -> & Hctrl1 & Hfs1).
  intros Hres.
  assert (Hf1 : fout st1 = open_on name) by (destruct Hctrl1 as (_&_&_&->); exact Hf).
  assert (Hc1 : files st1 !! name = Some
    (c +:+ (if PyStr.contains "Distributed Cell" line
            then nl +:+ captured_label line +:+ ": " else ""))).
  { rewrite Hfs1. apply lookup_insert_eq. }
  destruct (result_stmt_open line st1 st' name _ Hf1 Hc1 Hres)
    as (Hctrl2 & _ & _ & Hfs2).
  split; [eapply same_ctrl_trans; eassumption|].
  rewrite Hfs2, Hfs1, insert_insert_eq. unfold written_by.
  rewrite app_assoc_str. reflexivity.
Qed.

Lemma cell_result_open_total line st name c :
  dc st = build_dc -> fout st = open_on name -> files st !! name = Some c ->
  (PyStr.contains "+/-" line = true -> exists ms, mean_std line = Ok ms) ->
  exists st', (cell_stmt line ;; result_stmt line)%stmt st = Normal st'.
Proof.
  intros Hdc Hf Hc Hok. unfold seq_stmt.
  destruct (cell_stmt_open line st name c Hdc Hf Hc) as (st1 & -> & Hctrl1 & _).
  apply (result_stmt_open_total line st1 name); [|exact Hok].
  destruct Hctrl1 as (_&_&_&->). exact Hf.
Qed.

Lemma scan_line_unfold line st :
  scan_line line st =
    match header_stmt line st with
    | Normal st1 => (cell_stmt line ;; result_stmt line)%stmt st1
    | Raised e st1 => Raised e st1
    end.
Proof. reflexivity. Qed.

Lemma scan_line_open line st st' name c :
  is_primary_header line = false ->
  dc st = build_dc -> fout st = open_on name -> files st !! name = Some c ->
  scan_line line st = Normal st' ->
  same_ctrl st st' /\ files st' = <[name := c +:+ written_by line]> (files st).
Proof.
  intros Hh Hdc Hf Hc. rewrite scan_line_unfold, (header_stmt_skip line st Hh).
  apply cell_result_open; assumption.
Qed.

Lemma scan_line_open_total line st name c :
  is_primary_header line = false ->
  dc st = build_dc -> fout st = open_on name -> files st !! name = Some c ->
  (PyStr.contains "+/-" line = true -> exists ms, mean_std line = Ok ms) ->
  exists st', scan_line line st = Normal st'.
Proof.
  intros Hh Hdc Hf Hc Hok. rewrite scan_line_unfold, (header_stmt_skip line st Hh).
  eapply cell_result_open_total; eassumption.
Qed.

(** ** Before the first primary header *)

Lemma py_index_err l i e : py_index l i = Err e -> e = IndexError.
Proof. unfold py_index. destruct (nth_error l i); intros [= <-]; reflexivity. Qed.

Lemma py_float_err s e : py_float s = Err e -> e = ValueError.
Proof.
  unfold py_float. destruct (PyFloat.float_of_string s); intros [= <-]; reflexivity.
Qed.

Lemma sci_field_err val i e :
  sci_field val i = Err e -> e = IndexError \/ e = ValueError.
Proof.
  unfold sci_field, rbind.
  destruct (py_index val i) as [tok|e1] eqn:Hi.
  - destruct (py_float tok) as [x|e2] eqn:Hx; [discriminate|].
    intros [= <-]. right. apply (py_float_err tok), Hx.
  - intros [= <-]. left. apply (py_index_err val i), Hi.
Qed.

Lemma mean_std_err line e :
  mean_std line = Err e -> e = IndexError \/ e = ValueError.
Proof.
  unfold mean_std, rbind.
  destruct (py_index (PyStr.split line) 0) as [v0|e0] eqn:H0.
  - destruct (String.eqb v0 "Flux");
      match goal with
      | |- context [sci_field ?v ?i] =>
          destruct (sci_field v i) as [mean|e1] eqn:H1
      end;
      try (intros [= <-]; apply (sci_field_err _ _ _ H1));
      match goal with
      | |- context [sci_field ?v ?i] =>
          destruct (sci_field v i) as [std|e2] eqn:H2
      end;
      try discriminate;
      intros [= <-]; apply (sci_field_err _ _ _ H2).
  - intros [= <-]. left. apply (py_index_err _ _ _ H0).
Qed.

Lemma cell_result_unbound line st :
  dc st = build_dc -> fout st = None ->
  (cell_stmt line ;; result_stmt line)%stmt st = Normal st
  \/ exists e st',
       (cell_stmt line ;; result_stmt line)%stmt st = Raised e st'
       /\ same_ctrl st st' /\ files st' = files st /\ early_error e.
Proof.
  intros Hdc Hf. unfold seq_stmt.
  destruct (PyStr.contains "Distributed Cell" line) eqn:Hcell.
  - right. rewrite (cell_stmt_spec line st Hdc Hcell).
    rewrite fout_write_unbound by (destruct st; exact Hf).
    eexists _, _. split; [reflexivity|].
    split; [destruct st; repeat split|]. split; [destruct st; reflexivity|].
    left. reflexivity.
  - rewrite (cell_stmt_skip line st Hcell). unfold result_stmt.
    destruct (PyStr.contains "+/-" line); [|left; reflexivity].
    right. destruct (mean_std line) as [[mean std]|e] eqn:Hms.
    + rewrite (fout_write_unbound _ _ Hf). eexists _, _.
      split; [reflexivity|]. split; [apply same_ctrl_refl|].
      split; [reflexivity|]. left. reflexivity.
    + eexists _, _. split; [reflexivity|]. split; [apply same_ctrl_refl|].
      split; [reflexivity|]. right. apply (mean_std_err line), Hms.
Qed.

Lemma scan_unbound lines st :
  Forall (fun l => is_primary_header l = false) lines ->
  dc st = build_dc -> fout st = None ->
  for_each scan_line lines st = Normal st
  \/ exists e st',
       for_each scan_line lines st = Raised e st'
       /\ same_ctrl st st' /\ files st' = files st /\ early_error e.
Proof.
  intros Hall Hdc Hf. induction Hall as [|line lines Hh _ IH].
  - left. reflexivity.
  - rewrite for_each_cons, scan_line_unfold, (header_stmt_skip line st Hh).
    destruct (cell_result_unbound line st Hdc Hf) as [->|(e & st' & -> & H)].
    + exact IH.
    + right. eauto.
Qed.

(** C10.  A report without any primary tally header (the empty report
    included) makes [main] end with an uncaught exception: the output
    stream variable is still unbound when the run stops, no quantity
    has been registered and the files of the working directory are as
    they were, so no output file has been created.  The exception is
    the unbound-variable error at the first write or at the final
    close, unless a result line fails to index or convert before it. *)
Theorem no_primary_header_raises report fs :
  Forall (fun l => is_primary_header l = false) (PyStr.file_lines report) ->
  exists e st,
    main report fs = Raised e st
    /\ early_error e
    /\ fout st = None /\ score_all st = [] /\ files st = fs
    /\ (PyStr.file_lines report = [] -> e = UnboundLocalError "fout").
Proof.
  intros Hall. unfold main, scan.
  set (lines := PyStr.file_lines report) in *.
  destruct (scan_unbound lines (initial_state fs) Hall eq_refl eq_refl)
    as [Hn|(e & st' & Hr & (_ & Hsa & _ & Hfo) & Hfs & He)].
  - exists (UnboundLocalError "fout"), (initial_state fs).
    unfold seq_stmt. rewrite Hn. split; [reflexivity|].
    split; [left; reflexivity|]. repeat split.
  - exists e, st'. unfold seq_stmt. rewrite Hr.
    split; [reflexivity|]. split; [exact He|].
    split; [exact Hfo|]. split; [exact Hsa|]. split; [exact Hfs|].
    intros Hnil. rewrite Hnil in Hr. discriminate Hr.
Qed.

Lemma no_primary_header_raises_witness :
  exists e st,
    main "" ∅ = Raised e st
    /\ early_error e
    /\ fout st = None /\ score_all st = [] /\ files st = ∅
    /\ (PyStr.file_lines "" = [] -> e = UnboundLocalError "fout").
Proof.
  apply (no_primary_header_raises "" ∅). vm_compute. constructor.
Defined.

(** ** The invariant of the scan *)

Lemma scan_inv_initial fs : scan_inv (initial_state fs).
Proof.
  split; [reflexivity|]. simpl. split; [split; reflexivity|constructor].
Qed.

Lemma is_Some_insert_mono (fs : gmap string string) k v f :
  is_Some (fs !! f) -> is_Some (<[k := v]> fs !! f).
Proof.
  intros H. destruct (decide (k = f)) as [->|Hne].
  - rewrite lookup_insert_eq. eauto.
  - rewrite lookup_insert_ne by exact Hne. exact H.
Qed.

Lemma scan_line_inv line st st' :
  scan_inv st -> scan_line line st = Normal st' -> scan_inv st'.
Proof.
  intros (Hdc & Hlast & Hex). rewrite scan_line_unfold.
  destruct (is_primary_header line) eqn:Hh.
  - rewrite (header_stmt_primary line st Hh).
    + destruct (nth_error (PyStr.split line) 3) as [q|]; [|discriminate].
      destruct (open_fails (q +:+ ".out") st); [discriminate|].
      intros H.
      apply (cell_result_open line _ st' (q +:+ ".out") "") in H
        as [(Hd & Hsa & Hfl & Hfo) Hfs];
        [|exact Hdc|reflexivity|apply lookup_insert_eq].
      simpl in *. split; [congruence|].
      rewrite Hsa, last_snoc. split.
      * split; [exact Hfo|]. split; [exact Hfl|].
        rewrite Hfs, lookup_insert_eq. eauto.
      * rewrite Hfs. apply Forall_app. split.
        -- eapply Forall_impl; [exact Hex|]. intros q' Hq'. simpl.
           apply is_Some_insert_mono, is_Some_insert_mono, Hq'.
        -- constructor; [|constructor]. rewrite lookup_insert_eq. eauto.
    + intros Hfl. destruct (last (score_all st)).
      * destruct Hlast as (-> & _). discriminate.
      * destruct Hlast as (_ & Ht). congruence.
  - rewrite (header_stmt_skip line st Hh). intros H.
    destruct (last (score_all st)) as [q|] eqn:Hl.
    + destruct Hlast as (Hf & Hfl & [c Hc]).
      apply (cell_result_open line st st' _ c Hdc Hf Hc) in H
        as [(Hd & Hsa & Hfl' & Hfo) Hfs].
      split; [congruence|]. rewrite Hsa, Hl. split.
      * split; [congruence|]. split; [congruence|].
        rewrite Hfs, lookup_insert_eq. eauto.
      * rewrite Hfs. eapply Forall_impl; [exact Hex|]. intros q' Hq'. simpl.
        apply is_Some_insert_mono, Hq'.
    + destruct Hlast as (Hf & Hfl).
      destruct (cell_result_unbound line st Hdc Hf) as [Hn|(e & st1 & Hr & _)].
      * rewrite Hn in H. injection H as <-. split; [exact Hdc|].
        rewrite Hl. split; [split; assumption|exact Hex].
      * rewrite Hr in H. discriminate.
Qed.

Lemma scan_lines_inv lines st st' :
  scan_inv st -> for_each scan_line lines st = Normal st' -> scan_inv st'.
Proof.
  revert st. induction lines as [|line lines IH]; intros st Hinv.
  - intros [= <-]. exact Hinv.
  - rewrite for_each_cons. destruct (scan_line line st) as [st1|] eqn:H1;
      [|discriminate].
    apply IH. eapply scan_line_inv; eassumption.
Qed.

Lemma reachable_inv st : reachable st -> scan_inv st.
Proof.
  intros (fs & lines & H). eapply scan_lines_inv; [apply scan_inv_initial|exact H].
Qed.

(** ** Blocks of lines without a primary header *)

Lemma block_open lines st st' name c :
  Forall (fun l => is_primary_header l = false) lines ->
  dc st = build_dc -> fout st = open_on name -> files st !! name = Some c ->
  for_each scan_line lines st = Normal st' ->
  same_ctrl st st'
  /\ files st' = <[name := c +:+ PyStr.join (map written_by lines)]> (files st).
Proof.
  intros Hall. revert st c. induction Hall as [|line lines Hh _ IH];
    intros st c Hdc Hf Hc.
  - intros [= <-]. split; [apply same_ctrl_refl|].
    simpl. rewrite app_nil_r_str. symmetry. apply insert_id, Hc.
  - rewrite for_each_cons. destruct (scan_line line st) as [st1|] eqn:H1;
      [|discriminate].
    destruct (scan_line_open line st st1 name c Hh Hdc Hf Hc H1)
      as [Hctrl1 Hfs1].
    intros H. apply (IH st1 (c +:+ written_by line)) in H as [Hctrl2 Hfs2].
    + split; [eapply same_ctrl_trans; eassumption|].
      rewrite Hfs2, Hfs1, insert_insert_eq. simpl.
      rewrite app_assoc_str. reflexivity.
    + destruct Hctrl1 as (-> & _). exact Hdc.
    + destruct Hctrl1 as (_ & _ & _ & ->). exact Hf.
    + rewrite Hfs1. apply lookup_insert_eq.
Qed.

Lemma block_open_total lines st name c :
  Forall (fun l => is_primary_header l = false) lines ->
  Forall (fun l => PyStr.contains "+/-" l = true ->
                   exists ms, mean_std l = Ok ms) lines ->
  dc st = build_dc -> fout st = open_on name -> files st !! name = Some c ->
  exists st', for_each scan_line lines st = Normal st'.
Proof.
  intros Hall. revert st c. induction Hall as [|line lines Hh _ IH];
    intros st c Hok Hdc Hf Hc.
  - exists st. reflexivity.
  - apply Forall_cons in Hok as [Hok1 Hok].
    rewrite for_each_cons.
    destruct (scan_line_open_total line st name c Hh Hdc Hf Hc Hok1) as [st1 H1].
    rewrite H1.
    destruct (scan_line_open line st st1 name c Hh Hdc Hf Hc H1)
      as [Hctrl1 Hfs1].
    apply (IH st1 (c +:+ written_by line) Hok).
    + destruct Hctrl1 as (-> & _). exact Hdc.
    + destruct Hctrl1 as (_ & _ & _ & ->). exact Hf.
    + rewrite Hfs1. apply lookup_insert_eq.
Qed.

(** C4.  On a header line that contains "TALLY" and "_2" the header
    branch does nothing: no file is opened and no quantity is
    registered.  Through the whole continuation block (up to the next
    primary header) the list of quantities, the open stream and the set
    of file names stay as they were, and what the block's lines write is
    appended to the file of the quantity registered last, the file the
    stream is open on; all other files keep their contents.  When a
    primary header has been seen and every result line of the block
    converts, the block is processed without an exception. *)
Theorem continuation_block_appends st h blk :
  reachable st ->
  PyStr.contains "TALLY" h = true -> PyStr.contains "_2" h = true ->
  Forall (fun l => is_primary_header l = false) blk ->
  header_stmt h st = Normal st
  /\ (forall st', for_each scan_line (h :: blk) st = Normal st' ->
        score_all st' = score_all st /\ fout st' = fout st
        /\ dom (files st') = dom (files st)
        /\ match last (score_all st) with
           | None => files st' = files st
           | Some q =>
               fout st = open_on (q +:+ ".out")
               /\ exists c, files st !! (q +:+ ".out") = Some c
                  /\ files st' =
                     <[q +:+ ".out" :=
                         c +:+ PyStr.join (map written_by (h :: blk))]>
                       (files st)
           end)
  /\ (last (score_all st) <> None ->
      Forall (fun l => PyStr.contains "+/-" l = true ->
                       exists ms, mean_std l = Ok ms) (h :: blk) ->
      exists st', for_each scan_line (h :: blk) st = Normal st').
Proof.
  intros Hreach Ht H2 Hblk.
  assert (Hh : is_primary_header h = false).
  { unfold is_primary_header. rewrite Ht, H2. reflexivity. }
  assert (Hall : Forall (fun l => is_primary_header l = false) (h :: blk))
    by (constructor; assumption).
  destruct (reachable_inv st Hreach) as (Hdc & Hlast & _).
  split; [apply header_stmt_skip, Hh|]. split.
  - intros st' Hrun. destruct (last (score_all st)) as [q|] eqn:Hl.
    + destruct Hlast as (Hf & Hfl & [c Hc]).
      destruct (block_open _ st st' _ c Hall Hdc Hf Hc Hrun)
        as [(_ & Hsa & _ & Hfo) Hfs].
      split; [exact Hsa|]. split; [exact Hfo|]. split.
      * rewrite Hfs. apply dom_insert_lookup_L. eauto.
      * split; [exact Hf|]. exists c. split; [exact Hc|exact Hfs].
    + destruct Hlast as (Hf & Hfl).
      destruct (scan_unbound _ st Hall Hdc Hf) as [Hn|(e & st1 & Hr & _)].
      * rewrite Hn in Hrun. injection Hrun as <-. repeat split.
      * rewrite Hr in Hrun. discriminate.
  - intros Hsome Hok. destruct (last (score_all st)) as [q|]; [|congruence].
    destruct Hlast as (Hf & Hfl & [c Hc]).
    eapply block_open_total; eassumption.
Qed.

Lemma continuation_block_appends_witness :
  let st := final_state
              (for_each scan_line ["TALLY 1 2 flux_All" +:+ nl]
                 (initial_state ∅)) in
  let h := "TALLY 1 2 flux_All_2" +:+ nl in
  let blk := [" Distributed Cell 7 l6(3,3)" +:+ nl;
              "Flux 5.0 +/- 6.0" +:+ nl] in
  reachable st
  /\ header_stmt h st = Normal st
  /\ (forall st', for_each scan_line (h :: blk) st = Normal st' ->
        score_all st' = ["flux_All"] /\ fout st' = open_on "flux_All.out"
        /\ files st' !! "flux_All.out"
           = Some (nl +:+ "A4_: 5.000000e+00, 6.000000e+00, "))
  /\ exists st', for_each scan_line (h :: blk) st = Normal st'.
Proof.
  intros st h blk.
  assert (Hreach : reachable st).
  { exists ∅, ["TALLY 1 2 flux_All" +:+ nl]. vm_compute. reflexivity. }
  assert (Hblk : Forall (fun l => is_primary_header l = false) blk).
  { repeat constructor. }
  destruct (continuation_block_appends st h blk Hreach eq_refl eq_refl Hblk)
    as (Hhdr & Happ & Htot).
  split; [exact Hreach|]. split; [exact Hhdr|]. split.
  - intros st' Hrun. destruct (Happ st' Hrun) as (Hsa & Hfo & _ & Hfs).
    split; [exact Hsa|]. split; [exact Hfo|].
    change (last (score_all st)) with (Some "flux_All") in Hfs.
    destruct Hfs as (_ & c & Hc & ->).
    rewrite lookup_insert_eq.
    assert (c = "") as -> by (vm_compute in Hc; congruence).
    vm_compute. reflexivity.
  - apply Htot; [discriminate|].
    apply Forall_cons. split; [intros H; vm_compute in H; discriminate H|].
    apply Forall_cons. split; [intros H; vm_compute in H; discriminate H|].
    apply Forall_cons. split; [|constructor].
    intros _. vm_compute. eexists. reflexivity.
Defined.

(** ** Result lines *)

Lemma prefix_cons_inv c n hay :
  String.prefix (String c n) hay = true -> exists r, hay = String c r.
Proof.
  destruct hay as [|b r]; simpl; [discriminate|].
  destruct (ascii_dec c b) as [->|]; [eauto|discriminate].
Qed.

Lemma contains_first_char c n hay :
  PyStr.contains (String c n) hay = true ->
  exists pre post, hay = pre +:+ String c post.
Proof.
  induction hay as [|b r IH].
  - simpl. discriminate.
  - cbn [PyStr.contains]. intros H. apply orb_true_iff in H as [H|H].
    + apply prefix_cons_inv in H as [r' ->]. exists "", r'. reflexivity.
    + destruct (IH H) as (pre & post & ->).
      exists (String b pre), post. reflexivity.
Qed.

Lemma split_go_cur cur s : cur <> "" -> PyStr.split_go cur s <> [].
Proof.
  revert cur. induction s as [|c r IH]; intros cur Hcur; simpl.
  - destruct (String.eqb_spec cur ""); congruence.
  - destruct (PyStr.is_space c).
    + destruct (String.eqb_spec cur ""); congruence.
    + apply IH. destruct cur; discriminate.
Qed.

Lemma split_go_char cur pre c post :
  PyStr.is_space c = false ->
  PyStr.split_go cur (pre +:+ String c post) <> [].
Proof.
  intros Hc. revert cur. induction pre as [|x pre IH]; intros cur.
  - rewrite app_nil_l_str. simpl. rewrite Hc.
    apply split_go_cur. destruct cur; discriminate.
  - rewrite app_cons_str. simpl. destruct (PyStr.is_space x).
    + destruct (String.eqb cur ""); [apply IH|discriminate].
    + apply IH.
Qed.

Lemma result_line_first_token line :
  PyStr.contains "+/-" line = true ->
  exists first rest, PyStr.split line = first :: rest.
Proof.
  intros H. apply contains_first_char in H as (pre & post & ->).
  pose proof (split_go_char "" pre "+" post eq_refl) as Hne.
  unfold PyStr.split. destruct (PyStr.split_go "" _); [congruence|eauto].
Qed.

Lemma sci_field_ok val i s :
  sci_field val i = Ok s <->
  exists tok x, nth_error val i = Some tok
    /\ PyFloat.float_of_string tok = Some x /\ s = PyFloat.format_6e x.
Proof.
  unfold sci_field, py_index, py_float, rbind. split.
  - destruct (nth_error val i) as [tok|]; [|discriminate].
    destruct (PyFloat.float_of_string tok) as [x|] eqn:Hx; [|discriminate].
    intros [= <-]. exists tok, x. auto.
  - intros (tok & x & -> & -> & ->). reflexivity.
Qed.

Lemma sci_pair_ok val i j mean std :
  (let! m := sci_field val i in let! s := sci_field val j in Ok (m, s))
    = Ok (mean, std)
  <-> sci_field val i = Ok mean /\ sci_field val j = Ok std.
Proof.
  unfold rbind.
  destruct (sci_field val i) as [m|]; destruct (sci_field val j) as [s|];
    split; try (intros [H1 H2]); try intros H; try discriminate;
    try (injection H as <- <-; auto); congruence.
Qed.

Lemma split_go_run t : forall cur rest,
  all_chars (fun c => negb (PyStr.is_space c)) t = true ->
  PyStr.split_go cur (t +:+ rest) = PyStr.split_go (cur +:+ t) rest.
Proof.
  induction t as [|c t IH]; intros cur rest Ht.
  - rewrite app_nil_l_str, app_nil_r_str. reflexivity.
  - rewrite app_cons_str. simpl in Ht. apply andb_true_iff in Ht as [Hc Ht].
    apply negb_true_iff in Hc. cbn [PyStr.split_go]. rewrite Hc.
    rewrite (IH _ _ Ht), app_assoc_str. reflexivity.
Qed.

Lemma split_token t sp rest :
  is_token t = true -> PyStr.is_space sp = true ->
  PyStr.split_go "" (t +:+ String sp rest) = t :: PyStr.split_go "" rest.
Proof.
  unfold is_token. intros Ht Hsp. apply andb_true_iff in Ht as [Hne Ht].
  rewrite (split_go_run t "" _ Ht), app_nil_l_str.
  cbn [PyStr.split_go]. rewrite Hsp.
  apply negb_true_iff in Hne. rewrite Hne. reflexivity.
Qed.

Lemma split_flux_layout tm ts :
  is_token tm = true -> is_token ts = true ->
  PyStr.split ("Flux " +:+ tm +:+ " +/- " +:+ ts +:+ nl)
  = ["Flux"; tm; "+/-"; ts].
Proof.
  intros Hm Hs. unfold PyStr.split.
  change ("Flux " +:+ tm +:+ " +/- " +:+ ts +:+ nl)
    with ("Flux" +:+ String " " (tm +:+ String " "
            ("+/-" +:+ String " " (ts +:+ String "010" "")))).
  rewrite (split_token "Flux"), (split_token tm), (split_token "+/-"),
    (split_token ts) by (assumption || reflexivity).
  reflexivity.
Qed.

Lemma split_rate_layout w1 w2 tm ts :
  is_token w1 = true -> is_token w2 = true ->
  is_token tm = true -> is_token ts = true ->
  PyStr.split (w1 +:+ " " +:+ w2 +:+ " " +:+ tm +:+ " +/- " +:+ ts +:+ nl)
  = [w1; w2; tm; "+/-"; ts].
Proof.
  intros H1 H2 Hm Hs. unfold PyStr.split.
  change (w1 +:+ " " +:+ w2 +:+ " " +:+ tm +:+ " +/- " +:+ ts +:+ nl)
    with (w1 +:+ String " " (w2 +:+ String " " (tm +:+ String " "
            ("+/-" +:+ String " " (ts +:+ String "010" ""))))).
  rewrite (split_token w1), (split_token w2), (split_token tm),
    (split_token "+/-"), (split_token ts) by (assumption || reflexivity).
  reflexivity.
Qed.

Lemma mean_std_of_tokens val first :
  nth_error val 0 = Some first ->
  forall line, PyStr.split line = val ->
  forall tm ts,
    nth_error val (if String.eqb first "Flux" then 1 else 2)%nat = Some tm ->
    nth_error val (if String.eqb first "Flux" then 3 else 4)%nat = Some ts ->
    mean_std line = sci_pair tm ts.
Proof.
  intros H0 line Hs tm ts Hm Hstd.
  unfold mean_std, sci_pair, sci_field, py_index, py_float, rbind.
  rewrite Hs, H0.
  destruct (String.eqb first "Flux"); rewrite Hm, Hstd;
    destruct (PyFloat.float_of_string tm); [|reflexivity| |reflexivity];
    destruct (PyFloat.float_of_string ts); reflexivity.
Qed.

(** C3.  On a line that contains "+/-" the first token exists.  When
    it is the word Flux, the mean is the 2nd token and the standard
    deviation the 4th; for any other first token they are the 3rd and
    the 5th (list positions 1, 3 and 2, 4 counted from 0).  The pair is
    obtained exactly when both tokens exist and convert with [float],
    each then rendered by ['%.6e'], and it is what the branch writes.
    In the two layouts of a result line, the word Flux, or two other
    words, then the mean, "+/-" and the standard deviation, separated
    by blanks, the tokens are these words in their order and the pair
    is made of the mean and the standard deviation; so 5.0 and 6.0 give
    5.000000e+00 and 6.000000e+00, and a token that is no number gives
    [ValueError]. *)
Theorem result_line_columns :
  (forall line,
     PyStr.contains "+/-" line = true ->
     exists first rest,
       PyStr.split line = first :: rest
       /\ let i := if String.eqb first "Flux" then 1%nat else 2%nat in
          let j := if String.eqb first "Flux" then 3%nat else 4%nat in
          (forall mean std,
             mean_std line = Ok (mean, std) <->
             exists tm ts xm xs,
               nth_error (PyStr.split line) i = Some tm
               /\ nth_error (PyStr.split line) j = Some ts
               /\ PyFloat.float_of_string tm = Some xm
               /\ PyFloat.float_of_string ts = Some xs
               /\ mean = PyFloat.format_6e xm /\ std = PyFloat.format_6e xs)
          /\ (forall st mean std,
                mean_std line = Ok (mean, std) ->
                result_stmt line st
                = fout_write (mean +:+ ", " +:+ std +:+ ", ") st))
  /\ (forall tm ts,
        is_token tm = true -> is_token ts = true ->
        let line := "Flux " +:+ tm +:+ " +/- " +:+ ts +:+ nl in
        PyStr.split line = ["Flux"; tm; "+/-"; ts]
        /\ mean_std line = sci_pair tm ts)
  /\ (forall w1 w2 tm ts,
        is_token w1 = true -> is_token w2 = true ->
        is_token tm = true -> is_token ts = true ->
        w1 <> "Flux" ->
        let line := w1 +:+ " " +:+ w2 +:+ " " +:+ tm +:+ " +/- " +:+ ts +:+ nl in
        PyStr.split line = [w1; w2; tm; "+/-"; ts]
        /\ mean_std line = sci_pair tm ts)
  /\ sci_pair "5.0" "6.0" = Ok ("5.000000e+00", "6.000000e+00")
  /\ sci_pair "1.25e-3" "4" = Ok ("1.250000e-03", "4.000000e+00")
  /\ sci_pair "n/a" "6.0" = Err ValueError.
Proof.
  split; [|split; [|split]].
  - intros line Hc.
    destruct (result_line_first_token line Hc) as (first & rest & Hs).
    exists first, rest. split; [exact Hs|]. cbv zeta. split.
    + intros mean std. unfold mean_std. rewrite Hs.
      change (py_index (first :: rest) 0) with (Ok first : result string).
      unfold rbind at 1.
      destruct (String.eqb first "Flux");
        rewrite sci_pair_ok, !sci_field_ok;
        (split;
         [ intros [(tm & xm & ? & ? & ?) (ts & xs & ? & ? & ?)];
           exists tm, ts, xm, xs; split_and!; assumption
         | intros (tm & ts & xm & xs & ? & ? & ? & ? & ? & ?);
           split; [exists tm, xm|exists ts, xs]; split_and!; assumption ]).
    + intros st mean std Hms. unfold result_stmt. rewrite Hc, Hms. reflexivity.
  - intros tm ts Hm Hs line.
    pose proof (split_flux_layout tm ts Hm Hs) as Hsp. split; [exact Hsp|].
    apply (mean_std_of_tokens ["Flux"; tm; "+/-"; ts] "Flux" eq_refl line Hsp);
      reflexivity.
  - intros w1 w2 tm ts H1 H2 Hm Hs Hne line.
    pose proof (split_rate_layout w1 w2 tm ts H1 H2 Hm Hs) as Hsp.
    split; [exact Hsp|].
    apply String.eqb_neq in Hne.
    apply (mean_std_of_tokens [w1; w2; tm; "+/-"; ts] w1 eq_refl line Hsp);
      rewrite Hne; reflexivity.
  - split_and!; vm_compute; reflexivity.
Qed.

Lemma result_line_columns_witness :
  PyStr.contains "+/-" ("Flux 5.0 +/- 6.0" +:+ nl) = true
  /\ PyStr.split ("Flux 5.0 +/- 6.0" +:+ nl) = ["Flux"; "5.0"; "+/-"; "6.0"]
  /\ mean_std ("Flux 5.0 +/- 6.0" +:+ nl)
     = Ok ("5.000000e+00", "6.000000e+00")
  /\ PyStr.split ("Absorption Rate 2.5 +/- 0.125" +:+ nl)
     = ["Absorption"; "Rate"; "2.5"; "+/-"; "0.125"]
  /\ mean_std ("Absorption Rate 2.5 +/- 0.125" +:+ nl)
     = Ok ("2.500000e+00", "1.250000e-01")
  /\ (forall st,
        result_stmt ("Flux 5.0 +/- 6.0" +:+ nl) st
        = fout_write "5.000000e+00, 6.000000e+00, " st).
Proof.
  destruct result_line_columns as (Hgen & Hflux & Hrate & _).
  destruct (Hflux "5.0" "6.0" eq_refl eq_refl) as [Hs1 Hm1].
  destruct (Hrate "Absorption" "Rate" "2.5" "0.125" eq_refl eq_refl eq_refl
              eq_refl) as [Hs2 Hm2]; [discriminate|].
  assert (Hc : PyStr.contains "+/-" ("Flux 5.0 +/- 6.0" +:+ nl) = true)
    by reflexivity.
  assert (Hv1 : mean_std ("Flux 5.0 +/- 6.0" +:+ nl)
                = Ok ("5.000000e+00", "6.000000e+00")).
  { etrans; [exact Hm1|]. vm_compute. reflexivity. }
  split; [exact Hc|]. split; [exact Hs1|]. split; [exact Hv1|].
  split; [exact Hs2|]. split.
  - etrans; [exact Hm2|]. vm_compute. reflexivity.
  - intros st. destruct (Hgen _ Hc) as (first & rest & _ & _ & Hw).
    exact (Hw st _ _ Hv1).
Defined.

(** The scenario line of C5 as written: its 2nd token is "+/-", which
    [float] rejects, so no mean and no standard deviation are captured
    and the branch raises. *)
Lemma flux_scenario_line_raises :
  nth_error (PyStr.split "Flux +/- 5.0 +/- 6.0") 1 = Some "+/-"
  /\ PyFloat.float_of_string "+/-" = None
  /\ mean_std "Flux +/- 5.0 +/- 6.0" = Err ValueError
  /\ mean_std "Flux +/- 5.0 +/- 6.0" <> Ok ("5.000000e+00", "6.000000e+00")
  /\ forall st,
       result_stmt "Flux +/- 5.0 +/- 6.0" st = Raised ValueError st.
Proof.
  split; [reflexivity|]. split; [reflexivity|].
  assert (H : mean_std "Flux +/- 5.0 +/- 6.0" = Err ValueError)
    by (vm_compute; reflexivity).
  split; [exact H|]. split; [rewrite H; discriminate|].
  intros st. unfold result_stmt. rewrite H. reflexivity.
Qed.

(** C5, amended.  The Flux result line in the layout the branch reads,
    "Flux 5.0 +/- 6.0", has 5.0 as its 2nd and 6.0 as its 4th token and
    yields the mean 5.000000e+00 and the standard deviation
    6.000000e+00, which the branch writes to the open stream. *)
Theorem flux_line_mean_std :
  PyStr.split "Flux 5.0 +/- 6.0" = ["Flux"; "5.0"; "+/-"; "6.0"]
  /\ mean_std "Flux 5.0 +/- 6.0" = Ok ("5.000000e+00", "6.000000e+00")
  /\ forall st,
       result_stmt "Flux 5.0 +/- 6.0" st
       = fout_write "5.000000e+00, 6.000000e+00, " st.
Proof.
  split; [reflexivity|].
  assert (H : mean_std "Flux 5.0 +/- 6.0" = Ok ("5.000000e+00", "6.000000e+00"))
    by (vm_compute; reflexivity).
  split; [exact H|].
  intros st. unfold result_stmt. rewrite H. reflexivity.
Qed.

(** ** The header-strip pass *)

(** A report whose only line is a primary header leaves an empty
    quantity file; the strip step then runs on it without raising and
    the run ends normally with a file that holds one line break. *)
Lemma strip_header_accepts_empty_file :
  let st := final_state (scan ["TALLY 1 2 flux_All" +:+ nl] (initial_state ∅)) in
  files st !! "flux_All.out" = Some ""
  /\ (exists st', strip_header "flux_All" st = Normal st'
                  /\ files st' !! "flux_All.out" = Some nl)
  /\ exists st', main ("TALLY 1 2 flux_All" +:+ nl) ∅ = Normal st'
                 /\ files st' = {[ "flux_All.out" := nl ]}.
Proof.
  split; [vm_compute; reflexivity|]. split.
  - eexists. split; vm_compute; reflexivity.
  - eexists. split; vm_compute; reflexivity.
Qed.

(** C7, amended.  On an empty quantity file the header-strip step
    raises nothing: the slice of the empty list of lines is empty, and
    the step rewrites the file as a single line break and closes it. *)
Theorem strip_header_empty_file score st :
  files st !! (score +:+ ".out") = Some "" ->
  strip_header score st =
    Normal {| dc := dc st; score_all := score_all st;
              flag_first_score := flag_first_score st;
              fout := Some {| s_name := score +:+ ".out"; s_closed := true |};
              pc1 := pc1 st; pc2 := pc2 st;
              files := <[score +:+ ".out" := nl]> (files st) |}.
Proof.
  intros Hc. unfold strip_header, read_lines. rewrite Hc.
  change (PyStr.splitlines_keep (PyStr.universal_newlines "")) with (@nil string).
  change (PyStr.join (tail [])) with "".
  unfold seq_stmt, fout_open, open_fails, fout_write, fout_close.
  rewrite Hc. simpl.
  rewrite !lookup_insert_eq. simpl. rewrite !insert_insert_eq.
  reflexivity.
Qed.

Lemma strip_header_empty_file_witness :
  let st := final_state (scan ["TALLY 1 2 flux_All" +:+ nl] (initial_state ∅)) in
  files st !! ("flux_All" +:+ ".out") = Some ""
  /\ strip_header "flux_All" st =
     Normal {| dc := dc st; score_all := score_all st;
               flag_first_score := flag_first_score st;
               fout := Some {| s_name := "flux_All" +:+ ".out"; s_closed := true |};
               pc1 := pc1 st; pc2 := pc2 st;
               files := <["flux_All" +:+ ".out" := nl]> (files st) |}.
Proof.
  intros st.
  assert (H : files st !! ("flux_All" +:+ ".out") = Some "")
    by (vm_compute; reflexivity).
  split; [exact H|]. exact (strip_header_empty_file "flux_All" st H).
Defined.

(** ** Labels of "Distributed Cell" lines *)

(** C1 on the code.  The line below contains exactly one key of the
    table, [l21(0,0)], whose label is [E1]; the key loop nevertheless
    leaves the empty label, because [pc1] and [pc2] are reset at every
    iteration and the key is not the last one iterated; the record of
    that grid location is written with the bare prefix ": ".  For any
    line the captured label is that of the last key, [l6(3,3)], when the
    line contains it, and empty otherwise. *)
Theorem label_lost_unless_last_key :
  let line := " Distributed Cell 161 l21(0,0)" +:+ nl in
  List.filter (fun k => PyStr.contains k line) (dict_keys build_dc)
    = ["l21(0,0)"]
  /\ dict_get "l21(0,0)" build_dc = Ok "E1"
  /\ captured_label line = ""
  /\ (forall l, captured_label l
                = if PyStr.contains "l6(3,3)" l then "A4_" else "")
  /\ exists st,
       main report_one_pin ∅ = Normal st
       /\ files st
          = {[ "flux_All.out" := ": 1.000000e+00, 2.000000e+00, " +:+ nl ]}.
Proof.
  split; [vm_compute; reflexivity|]. split; [vm_compute; reflexivity|].
  split; [vm_compute; reflexivity|]. split; [apply captured_label_last_key|].
  eexists. split; vm_compute; reflexivity.
Qed.

(** C2 on the code.  A report with the two pairs (flux_All, A1) and
    (flux_All, E1) yields a file of two lines, each with both numbers
    in the six-digit scientific form, but neither line carries its
    label, and the lines stand in the order of their numbers, not of
    the labels A1 and E1. *)
Theorem round_trip_loses_labels :
  dict_get "l21(4,0)" build_dc = Ok "A1"
  /\ dict_get "l21(0,0)" build_dc = Ok "E1"
  /\ exists st,
       main report_two_pins ∅ = Normal st
       /\ files st
          = {[ "flux_All.out" :=
                 ": 1.000000e+00, 1.000000e-01, " +:+ nl
                 +:+ ": 2.000000e+00, 2.000000e-01, " +:+ nl ]}
       /\ files st !! "flux_All.out"
          <> Some ("A1: 2.000000e+00, 2.000000e-01, " +:+ nl
                   +:+ "E1: 1.000000e+00, 1.000000e-01, " +:+ nl).
Proof.
  split; [vm_compute; reflexivity|]. split; [vm_compute; reflexivity|].
  eexists. split; [vm_compute; reflexivity|].
  split; [vm_compute; reflexivity|].
  vm_compute. discriminate.
Qed.

(** C6 on the code.  Every quarter-core coordinate (lattice [l6]) maps
    to a label marked with an underscore, and the cell branch keeps
    such a label in [pc1] and the label of a pin in [pc2], to write
    [pc1 + pc2]: the quarter-core label before the row letter and
    column digit of the pin.  The reset of both variables at every key
    defeats this, as it defeats C1.  A line that names the quarter-core
    coordinate [l6(3,3)] and the pin [l21(0,0)] is written with the
    prefix [A4_] instead of [A4_E1], the pin label being lost; a line
    that names [l6(0,1)] and [l21(0,0)] has no prefix at all instead of
    [D2_E1]. *)
Theorem quarter_core_prefix_lost :
  Forall (fun ij =>
            dict_get (coord_key "l6" (fst ij) (snd ij)) build_dc
            = Ok (nth (fst ij) rows_4x4 "" +:+ PyStr.str_of_nat (snd ij + 1)
                  +:+ "_"))
         (list_prod (seq 0 4) (seq 0 4))
  /\ (let line := " Distributed Cell 7 l6(3,3) l21(0,0)" +:+ nl in
      List.filter (fun k => PyStr.contains k line) (dict_keys build_dc)
        = ["l21(0,0)"; "l6(3,3)"]
      /\ dict_get "l6(3,3)" build_dc = Ok "A4_"
      /\ dict_get "l21(0,0)" build_dc = Ok "E1"
      /\ kept_label line = "A4_E1"
      /\ captured_label line = "A4_"
      /\ exists st,
           main report_quarter_core_pin ∅ = Normal st
           /\ files st
              = {[ "flux_All.out" :=
                     "A4_: 5.000000e+00, 6.000000e+00, " +:+ nl ]})
  /\ (let line := " Distributed Cell 7 l6(0,1) l21(0,0)" +:+ nl in
      List.filter (fun k => PyStr.contains k line) (dict_keys build_dc)
        = ["l21(0,0)"; "l6(0,1)"]
      /\ dict_get "l6(0,1)" build_dc = Ok "D2_"
      /\ kept_label line = "D2_E1"
      /\ captured_label line = ""
      /\ exists st,
           main report_quarter_core_inner ∅ = Normal st
           /\ files st
              = {[ "flux_All.out" :=
                     ": 5.000000e+00, 6.000000e+00, " +:+ nl ]}).
Proof.
  split; [|split].
  - repeat (apply Forall_cons; split; [vm_compute; reflexivity|]).
    constructor.
  - cbv zeta. split_and!; try (vm_compute; reflexivity).
    eexists. split; vm_compute; reflexivity.
  - cbv zeta. split_and!; try (vm_compute; reflexivity).
    eexists. split; vm_compute; reflexivity.
Qed.

(** ** Lines of text *)

Lemma all_chars_app p a b :
  all_chars p (a +:+ b) = all_chars p a && all_chars p b.
Proof.
  induction a as [|c a IH]; [reflexivity|].
  rewrite app_cons_str. simpl. rewrite IH, andb_assoc. reflexivity.
Qed.

Lemma universal_newlines_no_cr s : no_cr (PyStr.universal_newlines s) = true.
Proof.
  assert (H : forall n s, (String.length s <= n)%nat ->
                          no_cr (PyStr.universal_newlines s) = true).
  { clear s. induction n as [|n IH]; intros [|c r] Hlen; simpl in *;
      try reflexivity; try lia.
    destruct (Ascii.eqb c "013") eqn:Hc.
    - destruct r as [|d r'].
      + reflexivity.
      + destruct (Ascii.eqb d "010"); cbn -[PyStr.universal_newlines];
          apply IH; simpl in *; lia.
    - cbn -[PyStr.universal_newlines]. rewrite Hc. apply IH. lia. }
  apply (H (String.length s)). lia.
Qed.

Lemma universal_newlines_id s : no_cr s = true -> PyStr.universal_newlines s = s.
Proof.
  induction s as [|c r IH]; [reflexivity|].
  change (no_cr (String c r)) with (negb (Ascii.eqb c "013") && no_cr r).
  intros H. apply andb_true_iff in H as [Hc Hr].
  apply negb_true_iff in Hc. simpl. rewrite Hc, (IH Hr). reflexivity.
Qed.

Lemma linebreak_cr : PyStr.is_linebreak "013" = true.
Proof. reflexivity. Qed.

Lemma no_cr_cons c r :
  no_cr (String c r) = negb (Ascii.eqb c "013") && no_cr r.
Proof. reflexivity. Qed.

Lemma no_break_cons c r :
  no_break (String c r) = negb (PyStr.is_linebreak c) && no_break r.
Proof. reflexivity. Qed.

Lemma not_break_not_cr c :
  PyStr.is_linebreak c = false -> Ascii.eqb c "013" = false.
Proof.
  intros Hb. destruct (Ascii.eqb_spec c "013") as [->|]; [|reflexivity].
  rewrite linebreak_cr in Hb. discriminate.
Qed.

Lemma no_break_no_cr s : no_break s = true -> no_cr s = true.
Proof.
  induction s as [|c r IH]; [reflexivity|].
  rewrite no_break_cons, no_cr_cons.
  intros H. apply andb_true_iff in H as [Hc Hr]. apply negb_true_iff in Hc.
  rewrite (IH Hr), (not_break_not_cr c Hc). reflexivity.
Qed.

Lemma complete_line_no_cr l : complete_line l = true -> no_cr l = true.
Proof.
  induction l as [|c r IH]; [discriminate|].
  rewrite no_cr_cons. simpl.
  destruct (PyStr.is_linebreak c) eqn:Hb.
  - intros H. apply andb_true_iff in H as [Hr Hc].
    apply String.eqb_eq in Hr as ->. rewrite Hc. reflexivity.
  - intros H. rewrite (IH H), (not_break_not_cr c Hb). reflexivity.
Qed.

Lemma complete_line_snoc cur c :
  no_break cur = true -> PyStr.is_linebreak c = true ->
  Ascii.eqb c "013" = false ->
  complete_line (cur +:+ String c "") = true.
Proof.
  intros Hcur Hb Hc. induction cur as [|x cur IH].
  - rewrite app_nil_l_str. simpl. rewrite Hb, Hc. reflexivity.
  - rewrite app_cons_str. simpl in *.
    apply andb_true_iff in Hcur as [Hx Hcur]. apply negb_true_iff in Hx.
    rewrite Hx. apply IH, Hcur.
Qed.

Lemma lines_ok_cons l ls :
  complete_line l = true -> lines_ok ls = true -> lines_ok (l :: ls) = true.
Proof.
  intros Hl Hls. destruct ls as [|l' ls].
  - simpl. rewrite Hl. reflexivity.
  - change (complete_line l && lines_ok (l' :: ls) = true).
    rewrite Hl, Hls. reflexivity.
Qed.

Lemma lines_ok_tail ls : lines_ok ls = true -> lines_ok (tail ls) = true.
Proof.
  destruct ls as [|l [|l' ls]]; try reflexivity.
  intros H. change (complete_line l && lines_ok (l' :: ls) = true) in H.
  apply andb_true_iff in H as [_ H]. exact H.
Qed.

Lemma lines_ok_complete ls :
  Forall (fun l => complete_line l = true) ls -> lines_ok ls = true.
Proof.
  induction 1 as [|l ls Hl _ IH]; [reflexivity|].
  apply lines_ok_cons; assumption.
Qed.

(** What [splitlines] returns from text without CR. *)
Lemma splitlines_go_ok t cur :
  no_cr t = true -> no_break cur = true ->
  lines_ok (PyStr.splitlines_go cur t) = true.
Proof.
  revert cur. induction t as [|c r IH]; intros cur Ht Hcur.
  - simpl. destruct (String.eqb_spec cur "") as [|Hne]; [reflexivity|].
    simpl. rewrite Hcur. destruct (String.eqb_spec cur ""); [contradiction|].
    apply orb_true_r.
  - simpl in Ht. apply andb_true_iff in Ht as [Hc Hr].
    apply negb_true_iff in Hc. simpl. rewrite Hc.
    destruct (PyStr.is_linebreak c) eqn:Hb.
    + apply lines_ok_cons; [apply complete_line_snoc; assumption|].
      apply IH; [exact Hr|reflexivity].
    + apply IH; [exact Hr|].
      unfold no_break. rewrite all_chars_app. fold (no_break cur).
      rewrite Hcur. simpl. rewrite Hb. reflexivity.
Qed.

Lemma read_lines_ok text :
  lines_ok (PyStr.splitlines_keep (PyStr.universal_newlines text)) = true.
Proof.
  apply splitlines_go_ok; [apply universal_newlines_no_cr|reflexivity].
Qed.

(** Splitting gives back the lines that were joined. *)
Lemma splitlines_go_complete l cur rest :
  complete_line l = true ->
  PyStr.splitlines_go cur (l +:+ rest)
  = (cur +:+ l) :: PyStr.splitlines_go "" rest.
Proof.
  revert cur. induction l as [|c r IH]; intros cur Hl; [discriminate|].
  rewrite app_cons_str. simpl in *.
  destruct (PyStr.is_linebreak c) eqn:Hb.
  - apply andb_true_iff in Hl as [Hr Hc]. apply String.eqb_eq in Hr as ->.
    apply negb_true_iff in Hc. rewrite Hc, app_nil_l_str. reflexivity.
  - rewrite (IH _ Hl), app_assoc_str. reflexivity.
Qed.

Lemma splitlines_go_open l cur :
  no_break l = true ->
  PyStr.splitlines_go cur l
  = if String.eqb (cur +:+ l) "" then [] else [cur +:+ l].
Proof.
  revert cur. induction l as [|c r IH]; intros cur Hl.
  - rewrite app_nil_r_str. reflexivity.
  - simpl in *. apply andb_true_iff in Hl as [Hc Hr].
    apply negb_true_iff in Hc. rewrite Hc, (IH _ Hr), app_assoc_str.
    reflexivity.
Qed.

Lemma splitlines_join ls :
  lines_ok ls = true -> PyStr.splitlines_keep (PyStr.join ls) = ls.
Proof.
  unfold PyStr.splitlines_keep.
  induction ls as [|l ls IH]; intros Hok; [reflexivity|].
  destruct ls as [|l' ls].
  - simpl in *. rewrite app_nil_r_str.
    apply orb_true_iff in Hok as [Hc|Ho].
    + rewrite <- (app_nil_r_str l) at 1.
      rewrite (splitlines_go_complete l "" "" Hc). reflexivity.
    + apply andb_true_iff in Ho as [Hb Hne].
      rewrite (splitlines_go_open l "" Hb), app_nil_l_str.
      apply negb_true_iff in Hne. rewrite Hne. reflexivity.
  - change (complete_line l && lines_ok (l' :: ls) = true) in Hok.
    apply andb_true_iff in Hok as [Hc Hok].
    change (PyStr.join (l :: l' :: ls)) with (l +:+ PyStr.join (l' :: ls)).
    rewrite (splitlines_go_complete l "" _ Hc), (IH Hok). reflexivity.
Qed.

Lemma join_no_cr ls : lines_ok ls = true -> no_cr (PyStr.join ls) = true.
Proof.
  induction ls as [|l ls IH]; intros Hok; [reflexivity|].
  change (PyStr.join (l :: ls)) with (l +:+ PyStr.join ls).
  unfold no_cr. rewrite all_chars_app. fold (no_cr l) (no_cr (PyStr.join ls)).
  destruct ls as [|l' ls].
  - simpl in Hok. rewrite andb_true_r.
    apply orb_true_iff in Hok as [Hc|Ho].
    + apply complete_line_no_cr, Hc.
    + apply andb_true_iff in Ho as [Hb _]. apply no_break_no_cr, Hb.
  - change (complete_line l && lines_ok (l' :: ls) = true) in Hok.
    apply andb_true_iff in Hok as [Hc Hok].
    rewrite (complete_line_no_cr l Hc), (IH Hok). reflexivity.
Qed.

(** ** The sort pass *)

Lemma sorted_Sorted ls : Sorted String.le (sorted ls).
Proof. apply (Sorted_merge_sort String.le). Qed.

Lemma sorted_Permutation ls : sorted ls ≡ₚ ls.
Proof. apply (merge_sort_Permutation String.le). Qed.

Lemma sorted_perm_eq ls1 ls2 : ls1 ≡ₚ ls2 -> sorted ls1 = sorted ls2.
Proof.
  intros Hp. apply (Sorted_unique String.le); try apply sorted_Sorted.
  rewrite !sorted_Permutation. exact Hp.
Qed.

Lemma sorted_fixed ls : Sorted String.le ls -> sorted ls = ls.
Proof.
  intros Hs. apply (Sorted_unique String.le);
    [apply sorted_Sorted|exact Hs|apply sorted_Permutation].
Qed.

Lemma sorted_idem ls : sorted (sorted ls) = sorted ls.
Proof. apply sorted_fixed, sorted_Sorted. Qed.

Lemma complete_nl : complete_line nl = true.
Proof. reflexivity. Qed.

Lemma splitlines_join_nl ls :
  lines_ok ls = true ->
  Forall (fun l => complete_line l = true)
         (PyStr.splitlines_keep (PyStr.join ls +:+ nl)).
Proof.
  unfold PyStr.splitlines_keep.
  induction ls as [|l ls IH]; intros Hok.
  - repeat constructor.
  - destruct ls as [|l' ls].
    + simpl in Hok. simpl PyStr.join. rewrite app_nil_r_str.
      apply orb_true_iff in Hok as [Hc|Ho].
      * rewrite (splitlines_go_complete l "" nl Hc). repeat constructor.
        exact Hc.
      * apply andb_true_iff in Ho as [Hb _].
        assert (Hc : complete_line (l +:+ nl) = true)
          by (apply complete_line_snoc; [exact Hb|reflexivity..]).
        rewrite <- (app_nil_r_str (l +:+ nl)).
        rewrite (splitlines_go_complete _ "" "" Hc). repeat constructor.
        exact Hc.
    + change (complete_line l && lines_ok (l' :: ls) = true) in Hok.
      apply andb_true_iff in Hok as [Hc Hok].
      change (PyStr.join (l :: l' :: ls)) with (l +:+ PyStr.join (l' :: ls)).
      rewrite app_assoc_str, (splitlines_go_complete l "" _ Hc).
      constructor; [exact Hc|]. apply IH, Hok.
Qed.

Lemma strip_text_terminated text : terminated (strip_text text).
Proof.
  unfold terminated, strip_text.
  set (ls := tail (PyStr.splitlines_keep (PyStr.universal_newlines text))).
  assert (Hok : lines_ok ls = true) by apply lines_ok_tail, read_lines_ok.
  rewrite universal_newlines_id.
  - apply splitlines_join_nl, Hok.
  - unfold no_cr. rewrite all_chars_app. fold (no_cr (PyStr.join ls)).
    rewrite (join_no_cr ls Hok). reflexivity.
Qed.

Lemma sort_text_terminated text :
  terminated text ->
  terminated (sort_text text) /\ sort_text (sort_text text) = sort_text text.
Proof.
  unfold terminated, sort_text.
  set (ls := PyStr.splitlines_keep (PyStr.universal_newlines text)).
  intros Hls.
  assert (Hs : Forall (fun l => complete_line l = true) (sorted ls)).
  { apply Forall_forall. intros l Hl.
    rewrite sorted_Permutation in Hl. revert l Hl. apply Forall_forall, Hls. }
  assert (Hok : lines_ok (sorted ls) = true) by apply lines_ok_complete, Hs.
  rewrite (universal_newlines_id _ (join_no_cr _ Hok)).
  rewrite (splitlines_join _ Hok). split; [exact Hs|].
  rewrite sorted_idem. reflexivity.
Qed.

(** Without a final line break the pass is not idempotent on text: the
    unterminated last line is glued to the line sorted after it. *)
Lemma sort_text_needs_terminated :
  let text := "aa" +:+ nl +:+ "aa" +:+ nl +:+ "a" in
  sort_text text = "aaa" +:+ nl +:+ "aa" +:+ nl
  /\ sort_text (sort_text text) = "aa" +:+ nl +:+ "aaa" +:+ nl.
Proof. split; vm_compute; reflexivity. Qed.

(** ** The passes on the written files *)

Lemma strip_header_spec score st c :
  files st !! (score +:+ ".out") = Some c ->
  strip_header score st =
    Normal {| dc := dc st; score_all := score_all st;
              flag_first_score := flag_first_score st;
              fout := Some {| s_name := score +:+ ".out"; s_closed := true |};
              pc1 := pc1 st; pc2 := pc2 st;
              files := <[score +:+ ".out" := strip_text c]> (files st) |}.
Proof.
  intros Hc. unfold strip_header, read_lines. rewrite Hc.
  unfold seq_stmt, fout_open, open_fails, fout_write, fout_close.
  rewrite Hc. simpl.
  rewrite !lookup_insert_eq. simpl. rewrite !insert_insert_eq.
  rewrite app_nil_l_str. reflexivity.
Qed.

Lemma sort_entries_spec score st c :
  files st !! (score +:+ ".out") = Some c ->
  sort_entries score st =
    Normal {| dc := dc st; score_all := score_all st;
              flag_first_score := flag_first_score st;
              fout := Some {| s_name := score +:+ ".out"; s_closed := true |};
              pc1 := pc1 st; pc2 := pc2 st;
              files := <[score +:+ ".out" := sort_text c]> (files st) |}.
Proof.
  intros Hc. unfold sort_entries, read_lines. rewrite Hc.
  unfold seq_stmt, fout_open, open_fails, fout_write, fout_close.
  rewrite Hc. simpl.
  rewrite !lookup_insert_eq. simpl. rewrite !insert_insert_eq.
  rewrite app_nil_l_str. reflexivity.
Qed.

(** A loop that rewrites the file of each name by a function [g] on its
    text: [Pre] is what the loop needs of a file, [G] what it leaves. *)
Section RewriteLoop.
Variable body : string -> stmt.
Variable g : string -> string.
Variables Pre G : string -> Prop.
Hypothesis body_spec : forall n st c,
  files st !! (n +:+ ".out") = Some c ->
  exists st', body n st = Normal st' /\ score_all st' = score_all st
              /\ files st' = <[n +:+ ".out" := g c]> (files st).
Hypothesis G_post : forall c, Pre c -> G (g c).
Hypothesis G_pre : forall c, G c -> Pre c.

Lemma rewrite_loop names : forall st,
  (forall n, In n names ->
     exists c, files st !! (n +:+ ".out") = Some c /\ Pre c) ->
  exists st',
    for_each body names st = Normal st'
    /\ score_all st' = score_all st
    /\ (forall f c, files st !! f = Some c -> Pre c ->
          exists c', files st' !! f = Some c' /\ Pre c')
    /\ (forall f c, files st !! f = Some c -> G c ->
          exists c', files st' !! f = Some c' /\ G c')
    /\ (forall n, In n names ->
          exists c, files st' !! (n +:+ ".out") = Some c /\ G c).
Proof.
  induction names as [|n names IH]; intros st Hnames.
  - exists st. split; [reflexivity|]. split; [reflexivity|].
    split; [eauto|]. split; [eauto|]. intros n [].
  - destruct (Hnames n (or_introl eq_refl)) as (c0 & Hc0 & Hpre0).
    destruct (body_spec n st c0 Hc0) as (st1 & Hb & Hsa1 & Hfs1).
    assert (HP1 : forall f c, files st !! f = Some c -> Pre c ->
              exists c', files st1 !! f = Some c' /\ Pre c').
    { intros f c Hf Hp. rewrite Hfs1.
      destruct (decide (n +:+ ".out" = f)) as [<-|Hne].
      - rewrite lookup_insert_eq. eauto.
      - rewrite lookup_insert_ne by exact Hne. eauto. }
    assert (HG1 : forall f c, files st !! f = Some c -> G c ->
              exists c', files st1 !! f = Some c' /\ G c').
    { intros f c Hf Hp. rewrite Hfs1.
      destruct (decide (n +:+ ".out" = f)) as [<-|Hne].
      - rewrite lookup_insert_eq. eauto.
      - rewrite lookup_insert_ne by exact Hne. eauto. }
    destruct (IH st1) as (st' & Hrun & Hsa & HP & HG & Hn).
    { intros m Hm.
      destruct (Hnames m (or_intror Hm)) as (c & Hc & Hp). eauto. }
    exists st'. rewrite for_each_cons, Hb. split; [exact Hrun|].
    split; [congruence|]. split; [|split].
    + intros f c Hf Hp. destruct (HP1 f c Hf Hp) as (c1 & Hc1 & Hp1). eauto.
    + intros f c Hf Hp. destruct (HG1 f c Hf Hp) as (c1 & Hc1 & Hp1). eauto.
    + intros m [<-|Hm]; [|auto].
      apply (HG (n +:+ ".out") (g c0)); [|auto].
      rewrite Hfs1. apply lookup_insert_eq.
Qed.
End RewriteLoop.

Lemma strip_loop names st :
  (forall n, In n names -> is_Some (files st !! (n +:+ ".out"))) ->
  exists st',
    for_each strip_header names st = Normal st'
    /\ score_all st' = score_all st
    /\ (forall n, In n names ->
          exists c, files st' !! (n +:+ ".out") = Some c /\ terminated c).
Proof.
  intros Hex.
  destruct (rewrite_loop strip_header strip_text (fun _ => True) terminated)
    with (names := names) (st := st) as (st' & Hrun & Hsa & _ & _ & Hn).
  - intros n st0 c Hc. rewrite (strip_header_spec n st0 c Hc).
    eexists. split; [reflexivity|]. split; reflexivity.
  - intros c _. apply strip_text_terminated.
  - auto.
  - intros n Hn. destruct (Hex n Hn) as [c Hc]. eauto.
  - eauto.
Qed.

Lemma sort_loop names st :
  (forall n, In n names ->
     exists c, files st !! (n +:+ ".out") = Some c /\ terminated c) ->
  exists st',
    for_each sort_entries names st = Normal st'
    /\ score_all st' = score_all st
    /\ (forall n, In n names ->
          exists c, files st' !! (n +:+ ".out") = Some c
                    /\ terminated c /\ sort_text c = c).
Proof.
  intros Hex.
  destruct (rewrite_loop sort_entries sort_text terminated
              (fun c => terminated c /\ sort_text c = c))
    with (names := names) (st := st) as (st' & Hrun & Hsa & _ & _ & Hn).
  - intros n st0 c Hc. rewrite (sort_entries_spec n st0 c Hc).
    eexists. split; [reflexivity|]. split; reflexivity.
  - intros c Hc. apply sort_text_terminated, Hc.
  - intros c [Hc _]. exact Hc.
  - exact Hex.
  - eauto.
Qed.

(** Once the scan has ended normally the two passes cannot fail, and
    they leave every quantity file terminated and sorted. *)
Lemma post_passes_sorted st :
  Forall (fun q => is_Some (files st !! (q +:+ ".out"))) (score_all st) ->
  exists st',
    post_passes st = Normal st'
    /\ score_all st' = score_all st
    /\ (forall n, In n (score_all st) ->
          exists c, files st' !! (n +:+ ".out") = Some c
                    /\ terminated c /\ sort_text c = c).
Proof.
  intros Hex. unfold post_passes, seq_stmt.
  destruct (strip_loop (score_all st) st) as (st1 & -> & Hsa1 & Hn1).
  { intros n Hn. rewrite Forall_forall in Hex.
    apply Hex, list_elem_of_In, Hn. }
  rewrite Hsa1.
  destruct (sort_loop (score_all st) st1 Hn1) as (st2 & -> & Hsa2 & Hn2).
  exists st2. split; [reflexivity|]. split; [congruence|exact Hn2].
Qed.

Lemma main_unfold report fs :
  main report fs =
    match for_each scan_line (PyStr.file_lines report) (initial_state fs) with
    | Normal st1 =>
        match fout_close st1 with
        | Normal st2 => post_passes st2
        | Raised e st2 => Raised e st2
        end
    | Raised e st1 => Raised e st1
    end.
Proof.
  unfold main, scan, seq_stmt.
  destruct (for_each scan_line _ _); reflexivity.
Qed.

Lemma main_sorted report fs st :
  main report fs = Normal st ->
  forall n, In n (score_all st) ->
    exists c, files st !! (n +:+ ".out") = Some c
              /\ terminated c /\ sort_text c = c.
Proof.
  rewrite main_unfold.
  destruct (for_each scan_line _ _) as [st1|] eqn:Hscan; [|discriminate].
  pose proof (scan_lines_inv _ _ _ (scan_inv_initial fs) Hscan)
    as (_ & _ & Hex).
  unfold fout_close. destruct (fout st1) as [f|]; [|discriminate].
  set (st2 := set_fout _ st1).
  destruct (post_passes_sorted st2 Hex) as (st' & Hp & Hsa & Hn).
  rewrite Hp. intros [= <-]. rewrite Hsa. exact Hn.
Qed.

(** C8.  [sorted] is a function of the list of lines: its result is an
    ascending arrangement of the same lines, lists with the same lines
    give the same result, and sorting a sorted result again returns it
    unchanged; joined into a file the lines are therefore the same
    text.  On the text of a file whose lines are all terminated the
    whole pass (read, split, sort, write) is idempotent, and after a
    normal run of [main] running the sort pass once more on any
    registered quantity leaves every file as it is. *)
Theorem sort_pass_idempotent :
  (forall ls, sorted (sorted ls) = sorted ls)
  /\ (forall ls, PyStr.join (sorted (sorted ls)) = PyStr.join (sorted ls))
  /\ (forall ls, Sorted String.le (sorted ls) /\ sorted ls ≡ₚ ls)
  /\ (forall ls1 ls2, ls1 ≡ₚ ls2 -> sorted ls1 = sorted ls2)
  /\ (forall text, terminated text ->
        sort_text (sort_text text) = sort_text text)
  /\ (forall report fs st score,
        main report fs = Normal st -> In score (score_all st) ->
        exists st', sort_entries score st = Normal st'
                    /\ files st' = files st).
Proof.
  split_and!.
  - apply sorted_idem.
  - intros ls. rewrite sorted_idem. reflexivity.
  - intros ls. split; [apply sorted_Sorted|apply sorted_Permutation].
  - apply sorted_perm_eq.
  - intros text Ht. apply sort_text_terminated, Ht.
  - intros report fs st score Hmain Hin.
    destruct (main_sorted report fs st Hmain score Hin) as (c & Hc & _ & Hfix).
    rewrite (sort_entries_spec score st c Hc). eexists. split; [reflexivity|].
    simpl. rewrite Hfix. apply insert_id, Hc.
Qed.

Lemma sort_pass_idempotent_witness :
  (["b" +:+ nl; "a" +:+ nl] ≡ₚ ["a" +:+ nl; "b" +:+ nl] ->
   sorted ["b" +:+ nl; "a" +:+ nl] = sorted ["a" +:+ nl; "b" +:+ nl])
  /\ terminated ("b" +:+ nl +:+ "a" +:+ nl)
  /\ sort_text (sort_text ("b" +:+ nl +:+ "a" +:+ nl))
     = sort_text ("b" +:+ nl +:+ "a" +:+ nl)
  /\ exists st st',
       main report_two_pins ∅ = Normal st
       /\ In "flux_All" (score_all st)
       /\ sort_entries "flux_All" st = Normal st'
       /\ files st' = files st.
Proof.
  destruct sort_pass_idempotent as (_ & _ & _ & Hperm & Htext & Hmain).
  assert (Ht : terminated ("b" +:+ nl +:+ "a" +:+ nl)).
  { unfold terminated. vm_compute. repeat constructor. }
  split; [apply Hperm|]. split; [exact Ht|]. split; [apply Htext, Ht|].
  set (st := final_state (main report_two_pins ∅)).
  assert (Hrun : main report_two_pins ∅ = Normal st)
    by (vm_compute; reflexivity).
  assert (Hin : In "flux_All" (score_all st))
    by (vm_compute; left; reflexivity).
  destruct (Hmain report_two_pins ∅ st "flux_All" Hrun Hin) as (st' & Hs & Hf).
  exists st, st'. split_and!; assumption.
Defined.

(** * Further properties of the parser *)

(** ** The dictionary *)

Lemma dict_get_set_same k v d : dict_get k (dict_set k v d) = Ok v.
Proof.
  induction d as [|[k' v'] d IH]; simpl.
  - rewrite String.eqb_refl. reflexivity.
  - destruct (String.eqb_spec k k') as [->|Hne]; simpl.
    + rewrite String.eqb_refl. reflexivity.
    + destruct (String.eqb_spec k k'); [contradiction|]. exact IH.
Qed.

Lemma dict_get_set_other k k' v d :
  k' <> k -> dict_get k' (dict_set k v d) = dict_get k' d.
Proof.
  intros Hne. induction d as [|[k0 v0] d IH]; simpl.
  - destruct (String.eqb_spec k' k); [contradiction|]. reflexivity.
  - destruct (String.eqb_spec k k0) as [->|Hk]; simpl.
    + destruct (String.eqb_spec k' k0); [contradiction|]. reflexivity.
    + destruct (String.eqb_spec k' k0); [reflexivity|]. exact IH.
Qed.

Lemma dict_keys_set_present k v d :
  In k (dict_keys d) -> dict_keys (dict_set k v d) = dict_keys d.
Proof.
  induction d as [|[k0 v0] d IH]; simpl; [contradiction|].
  destruct (String.eqb_spec k k0) as [->|Hk]; [reflexivity|].
  intros [H|H]; [congruence|]. simpl. f_equal. apply IH, H.
Qed.

Lemma dict_keys_set_fresh k v d :
  ~ In k (dict_keys d) -> dict_keys (dict_set k v d) = dict_keys d ++ [k].
Proof.
  induction d as [|[k0 v0] d IH]; simpl; [reflexivity|].
  intros Hn. destruct (String.eqb_spec k k0) as [->|Hk].
  - exfalso. apply Hn. left. reflexivity.
  - simpl. f_equal. apply IH. intros H. apply Hn. right. exact H.
Qed.

Lemma dict_get_missing k d :
  dict_get k d = Err (KeyError k) <-> ~ In k (dict_keys d).
Proof.
  split.
  - intros H Hin. destruct (dict_get_key k d Hin) as [v Hv]. congruence.
  - induction d as [|[k0 v0] d IH]; simpl; [reflexivity|].
    intros Hn. destruct (String.eqb_spec k k0) as [->|Hk].
    + exfalso. apply Hn. left. reflexivity.
    + apply IH. intros H. apply Hn. right. exact H.
Qed.

(** X1.  The assignment [dc[k] = v] and the lookup [dc[k]]: the key
    just assigned reads back its value, every other key reads as
    before, a key already present keeps its place in the iteration
    order and a new key goes to the end, keys stay pairwise distinct,
    and a lookup raises [KeyError] exactly for the keys that are not in
    the dictionary. *)
Theorem dict_assignment_lookup k v d :
  dict_get k (dict_set k v d) = Ok v
  /\ (forall k', k' <> k -> dict_get k' (dict_set k v d) = dict_get k' d)
  /\ (In k (dict_keys d) -> dict_keys (dict_set k v d) = dict_keys d)
  /\ (~ In k (dict_keys d) -> dict_keys (dict_set k v d) = dict_keys d ++ [k])
  /\ (NoDup (dict_keys d) -> NoDup (dict_keys (dict_set k v d)))
  /\ (forall k', dict_get k' d = Err (KeyError k') <-> ~ In k' (dict_keys d)).
Proof.
  split_and!.
  - apply dict_get_set_same.
  - intros k'. apply dict_get_set_other.
  - apply dict_keys_set_present.
  - apply dict_keys_set_fresh.
  - intros Hnd. destruct (in_dec String.string_dec k (dict_keys d)) as [Hin|Hn].
    + rewrite (dict_keys_set_present k v d Hin). exact Hnd.
    + rewrite (dict_keys_set_fresh k v d Hn). apply NoDup_app.
      split; [exact Hnd|]. split.
      * intros x Hx Hx'. apply list_elem_of_In in Hx.
        apply list_elem_of_singleton in Hx'. subst. contradiction.
      * apply NoDup_singleton.
  - intros k'. apply dict_get_missing.
Qed.

Lemma dict_assignment_lookup_witness :
  let d := [("l21(0,0)", "E1"); ("l21(0,1)", "E2")] in
  dict_get "l21(0,1)" (dict_set "l21(0,1)" "X" d) = Ok "X"
  /\ dict_get "l21(0,0)" (dict_set "l21(0,1)" "X" d) = dict_get "l21(0,0)" d
  /\ dict_keys (dict_set "l21(0,1)" "X" d) = dict_keys d
  /\ dict_keys (dict_set "l6(0,0)" "D1_" d) = dict_keys d ++ ["l6(0,0)"]
  /\ NoDup (dict_keys (dict_set "l6(0,0)" "D1_" d))
  /\ dict_get "l9(0,0)" d = Err (KeyError "l9(0,0)").
Proof.
  intros d.
  destruct (dict_assignment_lookup "l21(0,1)" "X" d) as (H1 & H2 & H3 & _ & _ & H6).
  destruct (dict_assignment_lookup "l6(0,0)" "D1_" d) as (_ & _ & _ & H4 & H5 & _).
  split; [exact H1|].
  split; [apply H2; discriminate|].
  split; [apply H3; right; left; reflexivity|].
  split; [apply H4; intros [H|[H|[]]]; discriminate H|].
  split; [apply H5; compute_done|].
  apply H6. intros [H|[H|[]]]; discriminate H.
Defined.

Lemma dict_get_snoc k v d :
  ~ In k (dict_keys d) -> dict_get k (d ++ [(k, v)]) = Ok v.
Proof.
  induction d as [|[k0 v0] d IH]; simpl; intros Hn.
  - rewrite String.eqb_refl. reflexivity.
  - destruct (String.eqb_spec k k0) as [->|Hk].
    + exfalso. apply Hn. left. reflexivity.
    + apply IH. intros H. apply Hn. right. exact H.
Qed.

(** X2.  The key loop of the "Distributed Cell" branch, for any table:
    since [pc1] and [pc2] are reset at the top of every iteration, what
    the loop leaves depends on the last entry of the table only.  If the
    line contains the last key, its label is left in [pc1] when it holds
    an underscore and in [pc2] otherwise; if not, both are left empty,
    whatever other keys the line contains. *)
Theorem key_loop_keeps_last_entry_only line d k v st :
  dc st = d ++ [(k, v)] -> ~ In k (dict_keys d) ->
  for_each (key_body line) (dict_keys (dc st)) st =
    Normal (if PyStr.contains k line
            then (if PyStr.contains "_" v
                  then with_pcs v "" st else with_pcs "" v st)
            else with_pcs "" "" st).
Proof.
  intros Hdc Hfresh.
  assert (Hk : dict_keys (dc st) = dict_keys d ++ [k]).
  { rewrite Hdc. unfold dict_keys. rewrite map_app. reflexivity. }
  rewrite Hk, key_loop_last.
  - unfold key_body. destruct (PyStr.contains k line); [|reflexivity].
    change (dc (set_pc1 "" (set_pc2 "" (set_pc1 "" st)))) with (dc st).
    rewrite Hdc, (dict_get_snoc k v d Hfresh).
    destruct (PyStr.contains "_" v); destruct st; reflexivity.
  - intros x Hx. rewrite Hk. apply in_or_app. left. exact Hx.
Qed.

Lemma key_loop_keeps_last_entry_only_witness :
  let d := [("l21(0,0)", "E1")] in
  let st := {| dc := d ++ [("l6(0,0)", "D1_")]; score_all := [];
               flag_first_score := true; fout := None;
               pc1 := None; pc2 := None; files := ∅ |} in
  for_each (key_body "Distributed Cell l21(0,0)") (dict_keys (dc st)) st
  = Normal (with_pcs "" "" st).
Proof.
  intros d st.
  apply (key_loop_keeps_last_entry_only "Distributed Cell l21(0,0)"
           d "l6(0,0)" "D1_" st).
  - reflexivity.
  - intros [H|[]]. discriminate H.
Defined.

(** ** Tokens and registered names *)






(** ** One line of the scan, in all its cases *)





(** ** The scan as a whole *)





Lemma prefix_one x c r :
  String.prefix (String x "") (String c r) = if ascii_dec x c then true else false.
Proof.
  change (String.prefix (String x "") (String c r))
    with (if ascii_dec x c then String.prefix "" r else false).
  destruct (ascii_dec x c); [destruct r|]; reflexivity.
Qed.

Lemma contains_slash_app a b :
  PyStr.contains "/" (a +:+ b) = PyStr.contains "/" a || PyStr.contains "/" b.
Proof.
  induction a as [|c a IH].
  - rewrite app_nil_l_str. reflexivity.
  - rewrite app_cons_str.
    change (PyStr.contains "/" (String c (a +:+ b)))
      with (String.prefix "/" (String c (a +:+ b)) || PyStr.contains "/" (a +:+ b)).
    change (PyStr.contains "/" (String c a))
      with (String.prefix "/" (String c a) || PyStr.contains "/" a).
    rewrite !prefix_one, IH. destruct (ascii_dec "/" c); reflexivity.
Qed.

Lemma plain_name_no_slash q : plain_name q -> PyStr.contains "/" q = false.
Proof.
  unfold plain_name, open_error. intros H.
  destruct (has_nul (q +:+ ".out")); [discriminate|].
  destruct (PyStr.contains "/" (q +:+ ".out")) eqn:Hs; [discriminate|].
  rewrite contains_slash_app in Hs. apply orb_false_iff in Hs as [Hs _]. exact Hs.
Qed.

Lemma no_slash_out q :
  PyStr.contains "/" q = false -> PyStr.contains "/" (q +:+ ".out") = false.
Proof. intros H. rewrite contains_slash_app, H. reflexivity. Qed.








(** ** Files that are not quantity files *)





















(** ** The two passes as functions on text *)







(** X8.  On a file whose lines are all terminated the sort step loses
    and duplicates nothing: the lines of the text it writes are the
    lines it read, the same number of them, arranged in ascending
    order. *)
Theorem sort_entries_permutes_lines score st text :
  files st !! (score +:+ ".out") = Some text ->
  terminated text ->
  exists st' text',
    sort_entries score st = Normal st'
    /\ files st' = <[score +:+ ".out" := text']> (files st)
    /\ let before := PyStr.splitlines_keep (PyStr.universal_newlines text) in
       let after := PyStr.splitlines_keep (PyStr.universal_newlines text') in
       after = sorted before
       /\ after ≡ₚ before
       /\ length after = length before
       /\ Sorted String.le after.
Proof.
  intros Hc Ht. rewrite (sort_entries_spec score st text Hc).
  eexists _, (sort_text text). split; [reflexivity|]. split; [reflexivity|].
  intros before after.
  assert (Ha : after = sorted before).
  { unfold after, sort_text. fold before.
    assert (Hs : Forall (fun l => complete_line l = true) (sorted before)).
    { apply Forall_forall. intros l Hl. rewrite sorted_Permutation in Hl.
      revert l Hl. apply Forall_forall, Ht. }
    assert (Hok : lines_ok (sorted before) = true) by apply lines_ok_complete, Hs.
    rewrite (universal_newlines_id _ (join_no_cr _ Hok)).
    apply splitlines_join, Hok. }
  rewrite Ha. split; [reflexivity|]. split; [apply sorted_Permutation|].
  split; [rewrite sorted_Permutation; reflexivity|apply sorted_Sorted].
Qed.

Lemma sort_entries_permutes_lines_witness :
  let text := "b" +:+ nl +:+ "a" +:+ nl in
  let st := set_files {[ "q.out" := text ]} (initial_state ∅) in
  exists st' text',
    sort_entries "q" st = Normal st'
    /\ files st' = <["q" +:+ ".out" := text']> (files st)
    /\ PyStr.splitlines_keep (PyStr.universal_newlines text')
       = sorted (PyStr.splitlines_keep (PyStr.universal_newlines text))
    /\ length (PyStr.splitlines_keep (PyStr.universal_newlines text'))
       = length (PyStr.splitlines_keep (PyStr.universal_newlines text)).
Proof.
  intros text st.
  assert (Ht : terminated text).
  { unfold terminated. vm_compute. repeat constructor. }
  destruct (sort_entries_permutes_lines "q" st text eq_refl Ht)
    as (st' & text' & Hs & Hf & H1 & _ & H3 & _).
  exists st', text'. split; [exact Hs|]. split; [exact Hf|].
  split; [exact H1|exact H3].
Defined.

(** ** Lines without a cue *)

Lemma scan_line_no_cue line st :
  has_cue line = false -> scan_line line st = Normal st.
Proof.
  unfold has_cue. intros H.
  apply orb_false_iff in H as [H Hres]. apply orb_false_iff in H as [Hh Hcell].
  rewrite scan_line_unfold, (header_stmt_skip line st Hh).
  unfold seq_stmt. rewrite (cell_stmt_skip line st Hcell).
  apply result_stmt_skip, Hres.
Qed.

(** X9.  Lines on which none of the three branches acts (no primary
    header, no "Distributed Cell", no "+/-") have no influence on the
    run: the scan of a list of lines ends as the scan of the lines with
    a cue among them, in the same state or with the same exception. *)
Theorem scan_ignores_lines_without_cue lines st :
  for_each scan_line (List.filter has_cue lines) st
  = for_each scan_line lines st.
Proof.
  revert st. induction lines as [|l lines IH]; intros st; [reflexivity|].
  cbn [List.filter]. destruct (has_cue l) eqn:Hc.
  - rewrite !for_each_cons. destruct (scan_line l st); [apply IH|reflexivity].
  - rewrite for_each_cons, (scan_line_no_cue l st Hc). apply IH.
Qed.

(** ** Characters of the written fields *)







(** ** The text a block writes, as records *)











(** ** A report with one quantity *)




(** ** Lookups in the built table *)

(** X11.  Every coordinate the filling loops enumerate reads back from
    the built table the label its own loop assigned, so no assignment
    of one loop is overwritten by another; the labels of the three 4x4
    lattices coincide position by position and those of the
    quarter-core lattice differ from them by the final underscore only,
    which no other label contains; a key that was not enumerated raises
    [KeyError]; the table has 89 entries. *)
Theorem table_lookup :
  (forall c, In c enumerated ->
     dict_get (key_of c) build_dc = Ok (expected_label c)
     /\ PyStr.contains "_" (expected_label c) = String.eqb (fst (fst c)) "l6")
  /\ (forall i j, (i < 4)%nat -> (j < 4)%nat ->
        dict_get (coord_key "l330" i j) build_dc
          = dict_get (coord_key "l331" i j) build_dc
        /\ dict_get (coord_key "l331" i j) build_dc
           = dict_get (coord_key "l402" i j) build_dc
        /\ exists label,
             dict_get (coord_key "l402" i j) build_dc = Ok label
             /\ dict_get (coord_key "l6" i j) build_dc = Ok (label +:+ "_"))
  /\ (forall k, ~ In k (map key_of enumerated) ->
        dict_get k build_dc = Err (KeyError k))
  /\ length build_dc = 89%nat.
Proof.
  split_and!.
  - assert (H : forallb (fun c =>
        match dict_get (key_of c) build_dc with
        | Ok v => String.eqb v (expected_label c)
                  && Bool.eqb (PyStr.contains "_" (expected_label c))
                              (String.eqb (fst (fst c)) "l6")
        | Err _ => false
        end) enumerated = true) by (vm_compute; reflexivity).
    rewrite forallb_forall in H. intros c Hc. specialize (H c Hc).
    destruct (dict_get (key_of c) build_dc) as [v|]; [|discriminate H].
    apply andb_true_iff in H as [Hv Hu].
    apply String.eqb_eq in Hv as ->. apply Bool.eqb_prop in Hu.
    split; [reflexivity|exact Hu].
  - intros i j Hi Hj.
    destruct i as [|[|[|[|i]]]]; try lia;
      destruct j as [|[|[|[|j]]]]; try lia;
      (split; [vm_compute; reflexivity|]);
      (split; [vm_compute; reflexivity|]);
      eexists; split; vm_compute; reflexivity.
  - intros k Hk. apply dict_get_missing. rewrite dict_keys_build_dc. exact Hk.
  - vm_compute. reflexivity.
Qed.

Lemma table_lookup_witness :
  (dict_get (key_of ("l21", 4%nat, 0%nat)) build_dc
     = Ok (expected_label ("l21", 4%nat, 0%nat))
   /\ PyStr.contains "_" (expected_label ("l21", 4%nat, 0%nat))
      = String.eqb (fst (fst ("l21", 4%nat, 0%nat))) "l6")
  /\ dict_get (coord_key "l330" 1 2) build_dc
     = dict_get (coord_key "l331" 1 2) build_dc
  /\ dict_get "l21(5,0)" build_dc = Err (KeyError "l21(5,0)").
Proof.
  destruct table_lookup as (H1 & H2 & H3 & _).
  split; [apply H1; apply list_elem_of_In; compute_done|].
  split; [apply (H2 1%nat 2%nat); lia|].
  apply H3. intros Hin. apply list_elem_of_In in Hin. revert Hin. compute_done.
Defined.

(** ** The primary header branch *)

(** X12.  A primary header line read between two lines of a scan: with
    fewer than four tokens it raises [IndexError] and leaves the state
    as it was; otherwise its 4th token is registered, also when it is
    registered already, and the stream of the block before is closed.
    For a token without a path separator the file [<token>.out] is then
    opened: if it exists, or if the name has no NUL and at most 255
    bytes, it is created or emptied, so what an earlier block of the
    same name had written is lost, and the stream is bound to it;
    otherwise the open raises [ValueError] for the NUL or [OSError] for
    the length, after the token has been registered and the stream
    closed, and with the files as they were. *)
Theorem primary_header_effect line st :
  reachable st -> is_primary_header line = true ->
  match nth_error (PyStr.split line) 3 with
  | None =>
      header_stmt line st = Raised IndexError st
      /\ scan_line line st = Raised IndexError st
  | Some q =>
      PyStr.contains "/" q = false ->
      (open_fails (q +:+ ".out") st = None
       <-> is_Some (files st !! (q +:+ ".out"))
           \/ (has_nul (q +:+ ".out") = false
               /\ byte_length (q +:+ ".out") <= 255))
      /\ match open_fails (q +:+ ".out") st with
         | None =>
             header_stmt line st =
               Normal {| dc := dc st; score_all := score_all st ++ [q];
                         flag_first_score := false;
                         fout := open_on (q +:+ ".out");
                         pc1 := pc1 st; pc2 := pc2 st;
                         files := <[q +:+ ".out" := ""]> (files st) |}
         | Some e =>
             let st' := {| dc := dc st; score_all := score_all st ++ [q];
                           flag_first_score := flag_first_score st;
                           fout := if flag_first_score st then fout st
                                   else closed_fout (fout st);
                           pc1 := pc1 st; pc2 := pc2 st;
                           files := files st |} in
             (e = ValueError \/ e = OSError (q +:+ ".out"))
             /\ header_stmt line st = Raised e st'
             /\ scan_line line st = Raised e st'
         end
  end.
Proof.
  intros Hreach Hh.
  destruct (reachable_inv st Hreach) as (_ & Hlast & _).
  assert (Hfl : flag_first_score st = false -> fout st <> None).
  { intros Hfl. destruct (last (score_all st)).
    - destruct Hlast as (-> & _). discriminate.
    - destruct Hlast as (_ & Ht). congruence. }
  pose proof (header_stmt_primary line st Hh Hfl) as H.
  destruct (nth_error (PyStr.split line) 3) as [q|];
    [|split; [exact H|]; rewrite scan_line_unfold, H; reflexivity].
  intros Hs. apply no_slash_out in Hs. split.
  - unfold open_fails, open_error. rewrite Hs.
    destruct (files st !! (q +:+ ".out")) as [c|].
    + split; [intros _; left; eauto|reflexivity].
    + destruct (has_nul (q +:+ ".out")).
      * split; [discriminate|]. intros [[c Hc]|[Hc _]]; discriminate Hc.
      * destruct (255 <? byte_length (q +:+ ".out")) eqn:Hlen.
        -- apply Z.ltb_lt in Hlen. split; [discriminate|].
           intros [[c Hc]|[_ Hc]]; [discriminate Hc|lia].
        -- apply Z.ltb_ge in Hlen. split; [|reflexivity].
           intros _. right. split; [reflexivity|exact Hlen].
  - destruct (open_fails (q +:+ ".out") st) as [e|] eqn:Hop; [|exact H].
    cbv zeta. split; [|split; [exact H|rewrite scan_line_unfold, H; reflexivity]].
    apply open_fails_error in Hop as [_ Hop].
    destruct (open_error_kind _ _ Hop) as [(-> & _)|[(-> & Hc)|(-> & _)]];
      [left; reflexivity| |right; reflexivity].
    rewrite Hs in Hc. discriminate Hc.
Qed.

Lemma primary_header_effect_witness :
  let line := "TALLY 1 2 flux_All" +:+ nl in
  let st := final_state
              (for_each scan_line [line; " Distributed Cell 7 l6(3,3)" +:+ nl]
                 (initial_state ∅)) in
  files st !! "flux_All.out" = Some (nl +:+ "A4_: ")
  /\ header_stmt line st =
       Normal {| dc := dc st; score_all := ["flux_All"; "flux_All"];
                 flag_first_score := false; fout := open_on "flux_All.out";
                 pc1 := pc1 st; pc2 := pc2 st;
                 files := {[ "flux_All.out" := "" ]} |}.
Proof.
  intros line st.
  assert (Hreach : reachable st).
  { exists ∅, [line; " Distributed Cell 7 l6(3,3)" +:+ nl].
    vm_compute. reflexivity. }
  pose proof (primary_header_effect line st Hreach eq_refl) as H.
  change (nth_error (PyStr.split line) 3) with (Some "flux_All") in H.
  destruct (H eq_refl) as [_ H'].
  assert (Hop : open_fails ("flux_All" +:+ ".out") st = None)
    by (vm_compute; reflexivity).
  rewrite Hop in H'.
  split; [vm_compute; reflexivity|].
  rewrite H'. vm_compute. reflexivity.
Defined.

(** On a name too long for the file system the header registers the
    quantity and then raises; no file is made. *)
Lemma primary_header_long_name :
  let q := PyStr.join (repeat "abcdefghijklmnopqrstuvwxyz" 10) in
  let line := "TALLY 1 2 " +:+ q +:+ nl in
  exists st,
    main line ∅ = Raised (OSError (q +:+ ".out")) st
    /\ score_all st = [q] /\ files st = ∅.
Proof. eexists. split_and!; vm_compute; reflexivity. Qed.

(** ** Reports with several quantities *)
















(** ** A quantity named by two primary headers *)





